(** * gstrtmpsink: the RTMP sink element of gst-rtmp

    A shallow embedding of [src/gstrtmpsink.c]: the element's instance
    structure, the [start]/[stop]/[event] virtual methods and the chunk
    delivery function [gst_rtmp_sink_render], followed by the properties of
    the reconnection state machine.

    librtmp and the GStreamer bus are external: each call made into them is
    recorded in an observation trace, and the values librtmp returns are
    supplied by a [Transport] oracle. *)

From Stdlib Require Import ZArith List Bool String Lia.
From Stdlib.Strings Require Import Byte.
Import ListNotations.

Local Open Scope string_scope.
Local Open Scope list_scope.
Local Open Scope Z_scope.

(** ** Data *)

(** [GstFlowReturn], restricted to the two values the element returns. *)
Variant GstFlowReturn : Type := GST_FLOW_OK | GST_FLOW_ERROR.

(** A [GstBuffer]: its bytes ([GST_BUFFER_DATA]/[GST_BUFFER_SIZE]) and its
    [GST_BUFFER_TIMESTAMP], a [GstClockTime] (unsigned, 64 bits). *)
Record GstBuffer : Type := mkBuffer {
  data : list byte;
  timestamp : Z
}.

(** [gst_buffer_join]: the bytes of the first buffer followed by those of
    the second; the result carries the first buffer's metadata. *)
Definition gst_buffer_join (b1 b2 : GstBuffer) : GstBuffer :=
  {| data := data b1 ++ data b2; timestamp := timestamp b1 |}.

(** The librtmp context behind the [RTMP *] pointer; only whether the
    pointer is [NULL] matters to the element. *)
Variant RTMP : Type := RTMP_context.

(** The element messages posted on the bus, by structure name. *)
Variant Message : Type :=
| disconnected (ts : Z)
| reconnected (ts : Z)
| bandwidth (ts : Z).

(** What one call of the element does to the outside world, in order. *)
Variant Obs : Type :=
| RTMP_Close
| RTMP_Free
| RTMP_Alloc (ok : bool)
| RTMP_Init
| RTMP_SetupURL (url : string) (ok : bool)
| RTMP_EnableWrite
| RTMP_IsConnected (r : bool)
| RTMP_SetOpt (opt : string) (ok : bool)
| RTMP_Connect (ok : bool)
| RTMP_ConnectStream (ok : bool)
| RTMP_Write (bytes : list byte) (ret : Z)
| gst_element_post_message (m : Message)
| GST_ELEMENT_ERROR (text : string)
| GST_ELEMENT_WARNING (text : string).

(** The answers of librtmp during one call of the element.  [write_ret k]
    is the value of the [k]-th [RTMP_Write] of the call: the number of
    bytes taken, [0] (packet too small, allocation failure) or [-1] (send
    failure). *)
Record Transport : Type := mkTransport {
  alloc_ok : bool;
  setup_url_ok : string -> bool;
  is_connected : bool;
  set_opt_ok : string -> bool;
  connect_ok : bool;
  connect_stream_ok : bool;
  write_ret : nat -> Z
}.

(** Modelled from the spec: the declaration of [struct _GstRTMPSink] is in
    [gstrtmpsink.h], which is not part of the sources.  The fields are
    those [gstrtmpsink.c] reads and writes; the status fields and
    [disconnection_notified] are C [int]s, the two [*_time_disc] fields and
    [reconnection_delay] are unsigned 64-bit clock values (section 6 of the
    specification: [timestamp: u64]), and [send_error_count] is an unsigned
    32-bit counter (section 3: [consecutive_write_failures: u32]). *)
Record GstRTMPSink : Type := mkSink {
  uri : option string;
  backup_uri : option string;
  rtmp_uri : option string;
  rtmp : option RTMP;
  flashver : string;
  tcp_timeout : Z;
  reconnection_delay : Z;
  is_backup : bool;
  first : bool;
  have_write_error : bool;
  try_now_connection : bool;
  connection_status : Z;
  sent_status : Z;
  send_error_count : Z;
  disconnection_notified : Z;
  begin_time_disc : Z;
  end_time_disc : Z;
  header : option GstBuffer;
  stream_meta_saved : bool;
  video_meta_saved : bool;
  audio_meta_saved : bool;
  stream_metadata : option GstBuffer;
  video_metadata : option GstBuffer;
  audio_metadata : option GstBuffer
}.

Definition set_uri (v : option string) (s : GstRTMPSink) : GstRTMPSink :=
  {| uri := v; backup_uri := backup_uri s; rtmp_uri := rtmp_uri s; rtmp :=
     rtmp s; flashver := flashver s; tcp_timeout := tcp_timeout s;
     reconnection_delay := reconnection_delay s; is_backup := is_backup s;
     first := first s; have_write_error := have_write_error s;
     try_now_connection := try_now_connection s; connection_status :=
     connection_status s; sent_status := sent_status s; send_error_count
     := send_error_count s; disconnection_notified :=
     disconnection_notified s; begin_time_disc := begin_time_disc s;
     end_time_disc := end_time_disc s; header := header s;
     stream_meta_saved := stream_meta_saved s; video_meta_saved :=
     video_meta_saved s; audio_meta_saved := audio_meta_saved s;
     stream_metadata := stream_metadata s; video_metadata :=
     video_metadata s; audio_metadata := audio_metadata s |}.

Definition set_backup_uri (v : option string) (s : GstRTMPSink) : GstRTMPSink :=
  {| uri := uri s; backup_uri := v; rtmp_uri := rtmp_uri s; rtmp := rtmp
     s; flashver := flashver s; tcp_timeout := tcp_timeout s;
     reconnection_delay := reconnection_delay s; is_backup := is_backup s;
     first := first s; have_write_error := have_write_error s;
     try_now_connection := try_now_connection s; connection_status :=
     connection_status s; sent_status := sent_status s; send_error_count
     := send_error_count s; disconnection_notified :=
     disconnection_notified s; begin_time_disc := begin_time_disc s;
     end_time_disc := end_time_disc s; header := header s;
     stream_meta_saved := stream_meta_saved s; video_meta_saved :=
     video_meta_saved s; audio_meta_saved := audio_meta_saved s;
     stream_metadata := stream_metadata s; video_metadata :=
     video_metadata s; audio_metadata := audio_metadata s |}.

Definition set_rtmp_uri (v : option string) (s : GstRTMPSink) : GstRTMPSink :=
  {| uri := uri s; backup_uri := backup_uri s; rtmp_uri := v; rtmp := rtmp
     s; flashver := flashver s; tcp_timeout := tcp_timeout s;
     reconnection_delay := reconnection_delay s; is_backup := is_backup s;
     first := first s; have_write_error := have_write_error s;
     try_now_connection := try_now_connection s; connection_status :=
     connection_status s; sent_status := sent_status s; send_error_count
     := send_error_count s; disconnection_notified :=
     disconnection_notified s; begin_time_disc := begin_time_disc s;
     end_time_disc := end_time_disc s; header := header s;
     stream_meta_saved := stream_meta_saved s; video_meta_saved :=
     video_meta_saved s; audio_meta_saved := audio_meta_saved s;
     stream_metadata := stream_metadata s; video_metadata :=
     video_metadata s; audio_metadata := audio_metadata s |}.

Definition set_rtmp (v : option RTMP) (s : GstRTMPSink) : GstRTMPSink :=
  {| uri := uri s; backup_uri := backup_uri s; rtmp_uri := rtmp_uri s;
     rtmp := v; flashver := flashver s; tcp_timeout := tcp_timeout s;
     reconnection_delay := reconnection_delay s; is_backup := is_backup s;
     first := first s; have_write_error := have_write_error s;
     try_now_connection := try_now_connection s; connection_status :=
     connection_status s; sent_status := sent_status s; send_error_count
     := send_error_count s; disconnection_notified :=
     disconnection_notified s; begin_time_disc := begin_time_disc s;
     end_time_disc := end_time_disc s; header := header s;
     stream_meta_saved := stream_meta_saved s; video_meta_saved :=
     video_meta_saved s; audio_meta_saved := audio_meta_saved s;
     stream_metadata := stream_metadata s; video_metadata :=
     video_metadata s; audio_metadata := audio_metadata s |}.

Definition set_reconnection_delay (v : Z) (s : GstRTMPSink) : GstRTMPSink :=
  {| uri := uri s; backup_uri := backup_uri s; rtmp_uri := rtmp_uri s;
     rtmp := rtmp s; flashver := flashver s; tcp_timeout := tcp_timeout s;
     reconnection_delay := v; is_backup := is_backup s; first := first s;
     have_write_error := have_write_error s; try_now_connection :=
     try_now_connection s; connection_status := connection_status s;
     sent_status := sent_status s; send_error_count := send_error_count s;
     disconnection_notified := disconnection_notified s; begin_time_disc
     := begin_time_disc s; end_time_disc := end_time_disc s; header :=
     header s; stream_meta_saved := stream_meta_saved s; video_meta_saved
     := video_meta_saved s; audio_meta_saved := audio_meta_saved s;
     stream_metadata := stream_metadata s; video_metadata :=
     video_metadata s; audio_metadata := audio_metadata s |}.

Definition set_is_backup (v : bool) (s : GstRTMPSink) : GstRTMPSink :=
  {| uri := uri s; backup_uri := backup_uri s; rtmp_uri := rtmp_uri s;
     rtmp := rtmp s; flashver := flashver s; tcp_timeout := tcp_timeout s;
     reconnection_delay := reconnection_delay s; is_backup := v; first :=
     first s; have_write_error := have_write_error s; try_now_connection
     := try_now_connection s; connection_status := connection_status s;
     sent_status := sent_status s; send_error_count := send_error_count s;
     disconnection_notified := disconnection_notified s; begin_time_disc
     := begin_time_disc s; end_time_disc := end_time_disc s; header :=
     header s; stream_meta_saved := stream_meta_saved s; video_meta_saved
     := video_meta_saved s; audio_meta_saved := audio_meta_saved s;
     stream_metadata := stream_metadata s; video_metadata :=
     video_metadata s; audio_metadata := audio_metadata s |}.

Definition set_first (v : bool) (s : GstRTMPSink) : GstRTMPSink :=
  {| uri := uri s; backup_uri := backup_uri s; rtmp_uri := rtmp_uri s;
     rtmp := rtmp s; flashver := flashver s; tcp_timeout := tcp_timeout s;
     reconnection_delay := reconnection_delay s; is_backup := is_backup s;
     first := v; have_write_error := have_write_error s;
     try_now_connection := try_now_connection s; connection_status :=
     connection_status s; sent_status := sent_status s; send_error_count
     := send_error_count s; disconnection_notified :=
     disconnection_notified s; begin_time_disc := begin_time_disc s;
     end_time_disc := end_time_disc s; header := header s;
     stream_meta_saved := stream_meta_saved s; video_meta_saved :=
     video_meta_saved s; audio_meta_saved := audio_meta_saved s;
     stream_metadata := stream_metadata s; video_metadata :=
     video_metadata s; audio_metadata := audio_metadata s |}.

Definition set_have_write_error (v : bool) (s : GstRTMPSink) : GstRTMPSink :=
  {| uri := uri s; backup_uri := backup_uri s; rtmp_uri := rtmp_uri s;
     rtmp := rtmp s; flashver := flashver s; tcp_timeout := tcp_timeout s;
     reconnection_delay := reconnection_delay s; is_backup := is_backup s;
     first := first s; have_write_error := v; try_now_connection :=
     try_now_connection s; connection_status := connection_status s;
     sent_status := sent_status s; send_error_count := send_error_count s;
     disconnection_notified := disconnection_notified s; begin_time_disc
     := begin_time_disc s; end_time_disc := end_time_disc s; header :=
     header s; stream_meta_saved := stream_meta_saved s; video_meta_saved
     := video_meta_saved s; audio_meta_saved := audio_meta_saved s;
     stream_metadata := stream_metadata s; video_metadata :=
     video_metadata s; audio_metadata := audio_metadata s |}.

Definition set_try_now_connection (v : bool) (s : GstRTMPSink) : GstRTMPSink :=
  {| uri := uri s; backup_uri := backup_uri s; rtmp_uri := rtmp_uri s;
     rtmp := rtmp s; flashver := flashver s; tcp_timeout := tcp_timeout s;
     reconnection_delay := reconnection_delay s; is_backup := is_backup s;
     first := first s; have_write_error := have_write_error s;
     try_now_connection := v; connection_status := connection_status s;
     sent_status := sent_status s; send_error_count := send_error_count s;
     disconnection_notified := disconnection_notified s; begin_time_disc
     := begin_time_disc s; end_time_disc := end_time_disc s; header :=
     header s; stream_meta_saved := stream_meta_saved s; video_meta_saved
     := video_meta_saved s; audio_meta_saved := audio_meta_saved s;
     stream_metadata := stream_metadata s; video_metadata :=
     video_metadata s; audio_metadata := audio_metadata s |}.

Definition set_connection_status (v : Z) (s : GstRTMPSink) : GstRTMPSink :=
  {| uri := uri s; backup_uri := backup_uri s; rtmp_uri := rtmp_uri s;
     rtmp := rtmp s; flashver := flashver s; tcp_timeout := tcp_timeout s;
     reconnection_delay := reconnection_delay s; is_backup := is_backup s;
     first := first s; have_write_error := have_write_error s;
     try_now_connection := try_now_connection s; connection_status := v;
     sent_status := sent_status s; send_error_count := send_error_count s;
     disconnection_notified := disconnection_notified s; begin_time_disc
     := begin_time_disc s; end_time_disc := end_time_disc s; header :=
     header s; stream_meta_saved := stream_meta_saved s; video_meta_saved
     := video_meta_saved s; audio_meta_saved := audio_meta_saved s;
     stream_metadata := stream_metadata s; video_metadata :=
     video_metadata s; audio_metadata := audio_metadata s |}.

Definition set_sent_status (v : Z) (s : GstRTMPSink) : GstRTMPSink :=
  {| uri := uri s; backup_uri := backup_uri s; rtmp_uri := rtmp_uri s;
     rtmp := rtmp s; flashver := flashver s; tcp_timeout := tcp_timeout s;
     reconnection_delay := reconnection_delay s; is_backup := is_backup s;
     first := first s; have_write_error := have_write_error s;
     try_now_connection := try_now_connection s; connection_status :=
     connection_status s; sent_status := v; send_error_count :=
     send_error_count s; disconnection_notified := disconnection_notified
     s; begin_time_disc := begin_time_disc s; end_time_disc :=
     end_time_disc s; header := header s; stream_meta_saved :=
     stream_meta_saved s; video_meta_saved := video_meta_saved s;
     audio_meta_saved := audio_meta_saved s; stream_metadata :=
     stream_metadata s; video_metadata := video_metadata s; audio_metadata
     := audio_metadata s |}.

Definition set_send_error_count (v : Z) (s : GstRTMPSink) : GstRTMPSink :=
  {| uri := uri s; backup_uri := backup_uri s; rtmp_uri := rtmp_uri s;
     rtmp := rtmp s; flashver := flashver s; tcp_timeout := tcp_timeout s;
     reconnection_delay := reconnection_delay s; is_backup := is_backup s;
     first := first s; have_write_error := have_write_error s;
     try_now_connection := try_now_connection s; connection_status :=
     connection_status s; sent_status := sent_status s; send_error_count
     := v; disconnection_notified := disconnection_notified s;
     begin_time_disc := begin_time_disc s; end_time_disc := end_time_disc
     s; header := header s; stream_meta_saved := stream_meta_saved s;
     video_meta_saved := video_meta_saved s; audio_meta_saved :=
     audio_meta_saved s; stream_metadata := stream_metadata s;
     video_metadata := video_metadata s; audio_metadata := audio_metadata
     s |}.

Definition set_disconnection_notified (v : Z) (s : GstRTMPSink) : GstRTMPSink :=
  {| uri := uri s; backup_uri := backup_uri s; rtmp_uri := rtmp_uri s;
     rtmp := rtmp s; flashver := flashver s; tcp_timeout := tcp_timeout s;
     reconnection_delay := reconnection_delay s; is_backup := is_backup s;
     first := first s; have_write_error := have_write_error s;
     try_now_connection := try_now_connection s; connection_status :=
     connection_status s; sent_status := sent_status s; send_error_count
     := send_error_count s; disconnection_notified := v; begin_time_disc
     := begin_time_disc s; end_time_disc := end_time_disc s; header :=
     header s; stream_meta_saved := stream_meta_saved s; video_meta_saved
     := video_meta_saved s; audio_meta_saved := audio_meta_saved s;
     stream_metadata := stream_metadata s; video_metadata :=
     video_metadata s; audio_metadata := audio_metadata s |}.

Definition set_begin_time_disc (v : Z) (s : GstRTMPSink) : GstRTMPSink :=
  {| uri := uri s; backup_uri := backup_uri s; rtmp_uri := rtmp_uri s;
     rtmp := rtmp s; flashver := flashver s; tcp_timeout := tcp_timeout s;
     reconnection_delay := reconnection_delay s; is_backup := is_backup s;
     first := first s; have_write_error := have_write_error s;
     try_now_connection := try_now_connection s; connection_status :=
     connection_status s; sent_status := sent_status s; send_error_count
     := send_error_count s; disconnection_notified :=
     disconnection_notified s; begin_time_disc := v; end_time_disc :=
     end_time_disc s; header := header s; stream_meta_saved :=
     stream_meta_saved s; video_meta_saved := video_meta_saved s;
     audio_meta_saved := audio_meta_saved s; stream_metadata :=
     stream_metadata s; video_metadata := video_metadata s; audio_metadata
     := audio_metadata s |}.

Definition set_end_time_disc (v : Z) (s : GstRTMPSink) : GstRTMPSink :=
  {| uri := uri s; backup_uri := backup_uri s; rtmp_uri := rtmp_uri s;
     rtmp := rtmp s; flashver := flashver s; tcp_timeout := tcp_timeout s;
     reconnection_delay := reconnection_delay s; is_backup := is_backup s;
     first := first s; have_write_error := have_write_error s;
     try_now_connection := try_now_connection s; connection_status :=
     connection_status s; sent_status := sent_status s; send_error_count
     := send_error_count s; disconnection_notified :=
     disconnection_notified s; begin_time_disc := begin_time_disc s;
     end_time_disc := v; header := header s; stream_meta_saved :=
     stream_meta_saved s; video_meta_saved := video_meta_saved s;
     audio_meta_saved := audio_meta_saved s; stream_metadata :=
     stream_metadata s; video_metadata := video_metadata s; audio_metadata
     := audio_metadata s |}.

Definition set_header (v : option GstBuffer) (s : GstRTMPSink) : GstRTMPSink :=
  {| uri := uri s; backup_uri := backup_uri s; rtmp_uri := rtmp_uri s;
     rtmp := rtmp s; flashver := flashver s; tcp_timeout := tcp_timeout s;
     reconnection_delay := reconnection_delay s; is_backup := is_backup s;
     first := first s; have_write_error := have_write_error s;
     try_now_connection := try_now_connection s; connection_status :=
     connection_status s; sent_status := sent_status s; send_error_count
     := send_error_count s; disconnection_notified :=
     disconnection_notified s; begin_time_disc := begin_time_disc s;
     end_time_disc := end_time_disc s; header := v; stream_meta_saved :=
     stream_meta_saved s; video_meta_saved := video_meta_saved s;
     audio_meta_saved := audio_meta_saved s; stream_metadata :=
     stream_metadata s; video_metadata := video_metadata s; audio_metadata
     := audio_metadata s |}.

Definition set_stream_meta_saved (v : bool) (s : GstRTMPSink) : GstRTMPSink :=
  {| uri := uri s; backup_uri := backup_uri s; rtmp_uri := rtmp_uri s;
     rtmp := rtmp s; flashver := flashver s; tcp_timeout := tcp_timeout s;
     reconnection_delay := reconnection_delay s; is_backup := is_backup s;
     first := first s; have_write_error := have_write_error s;
     try_now_connection := try_now_connection s; connection_status :=
     connection_status s; sent_status := sent_status s; send_error_count
     := send_error_count s; disconnection_notified :=
     disconnection_notified s; begin_time_disc := begin_time_disc s;
     end_time_disc := end_time_disc s; header := header s;
     stream_meta_saved := v; video_meta_saved := video_meta_saved s;
     audio_meta_saved := audio_meta_saved s; stream_metadata :=
     stream_metadata s; video_metadata := video_metadata s; audio_metadata
     := audio_metadata s |}.

Definition set_video_meta_saved (v : bool) (s : GstRTMPSink) : GstRTMPSink :=
  {| uri := uri s; backup_uri := backup_uri s; rtmp_uri := rtmp_uri s;
     rtmp := rtmp s; flashver := flashver s; tcp_timeout := tcp_timeout s;
     reconnection_delay := reconnection_delay s; is_backup := is_backup s;
     first := first s; have_write_error := have_write_error s;
     try_now_connection := try_now_connection s; connection_status :=
     connection_status s; sent_status := sent_status s; send_error_count
     := send_error_count s; disconnection_notified :=
     disconnection_notified s; begin_time_disc := begin_time_disc s;
     end_time_disc := end_time_disc s; header := header s;
     stream_meta_saved := stream_meta_saved s; video_meta_saved := v;
     audio_meta_saved := audio_meta_saved s; stream_metadata :=
     stream_metadata s; video_metadata := video_metadata s; audio_metadata
     := audio_metadata s |}.

Definition set_audio_meta_saved (v : bool) (s : GstRTMPSink) : GstRTMPSink :=
  {| uri := uri s; backup_uri := backup_uri s; rtmp_uri := rtmp_uri s;
     rtmp := rtmp s; flashver := flashver s; tcp_timeout := tcp_timeout s;
     reconnection_delay := reconnection_delay s; is_backup := is_backup s;
     first := first s; have_write_error := have_write_error s;
     try_now_connection := try_now_connection s; connection_status :=
     connection_status s; sent_status := sent_status s; send_error_count
     := send_error_count s; disconnection_notified :=
     disconnection_notified s; begin_time_disc := begin_time_disc s;
     end_time_disc := end_time_disc s; header := header s;
     stream_meta_saved := stream_meta_saved s; video_meta_saved :=
     video_meta_saved s; audio_meta_saved := v; stream_metadata :=
     stream_metadata s; video_metadata := video_metadata s; audio_metadata
     := audio_metadata s |}.

Definition set_stream_metadata (v : option GstBuffer) (s : GstRTMPSink) : GstRTMPSink :=
  {| uri := uri s; backup_uri := backup_uri s; rtmp_uri := rtmp_uri s;
     rtmp := rtmp s; flashver := flashver s; tcp_timeout := tcp_timeout s;
     reconnection_delay := reconnection_delay s; is_backup := is_backup s;
     first := first s; have_write_error := have_write_error s;
     try_now_connection := try_now_connection s; connection_status :=
     connection_status s; sent_status := sent_status s; send_error_count
     := send_error_count s; disconnection_notified :=
     disconnection_notified s; begin_time_disc := begin_time_disc s;
     end_time_disc := end_time_disc s; header := header s;
     stream_meta_saved := stream_meta_saved s; video_meta_saved :=
     video_meta_saved s; audio_meta_saved := audio_meta_saved s;
     stream_metadata := v; video_metadata := video_metadata s;
     audio_metadata := audio_metadata s |}.

Definition set_video_metadata (v : option GstBuffer) (s : GstRTMPSink) : GstRTMPSink :=
  {| uri := uri s; backup_uri := backup_uri s; rtmp_uri := rtmp_uri s;
     rtmp := rtmp s; flashver := flashver s; tcp_timeout := tcp_timeout s;
     reconnection_delay := reconnection_delay s; is_backup := is_backup s;
     first := first s; have_write_error := have_write_error s;
     try_now_connection := try_now_connection s; connection_status :=
     connection_status s; sent_status := sent_status s; send_error_count
     := send_error_count s; disconnection_notified :=
     disconnection_notified s; begin_time_disc := begin_time_disc s;
     end_time_disc := end_time_disc s; header := header s;
     stream_meta_saved := stream_meta_saved s; video_meta_saved :=
     video_meta_saved s; audio_meta_saved := audio_meta_saved s;
     stream_metadata := stream_metadata s; video_metadata := v;
     audio_metadata := audio_metadata s |}.

Definition set_audio_metadata (v : option GstBuffer) (s : GstRTMPSink) : GstRTMPSink :=
  {| uri := uri s; backup_uri := backup_uri s; rtmp_uri := rtmp_uri s;
     rtmp := rtmp s; flashver := flashver s; tcp_timeout := tcp_timeout s;
     reconnection_delay := reconnection_delay s; is_backup := is_backup s;
     first := first s; have_write_error := have_write_error s;
     try_now_connection := try_now_connection s; connection_status :=
     connection_status s; sent_status := sent_status s; send_error_count
     := send_error_count s; disconnection_notified :=
     disconnection_notified s; begin_time_disc := begin_time_disc s;
     end_time_disc := end_time_disc s; header := header s;
     stream_meta_saved := stream_meta_saved s; video_meta_saved :=
     video_meta_saved s; audio_meta_saved := audio_meta_saved s;
     stream_metadata := stream_metadata s; video_metadata :=
     video_metadata s; audio_metadata := v |}.

(** Unsigned wrap-around of the 64-bit and 32-bit fields. *)
Definition u64 (z : Z) : Z := z mod 2 ^ 64.
Definition u32 (z : Z) : Z := z mod 2 ^ 32.
Arguments u64 : simpl never.
Arguments u32 : simpl never.

(** ** Outcomes *)

(** A call either completes or runs into undefined behaviour of the C
    program (a [NULL] context handed to librtmp, a read of [data[0]] in an
    empty buffer). *)
Variant outcome (A : Type) : Type :=
| Done (a : A)
| Undefined.
Arguments Done {A} a.
Arguments Undefined {A}.

Definition bind {A B : Type} (m : outcome A) (k : A -> outcome B) : outcome B :=
  match m with
  | Done a => k a
  | Undefined => Undefined
  end.

Notation "x <- m ;; k" := (bind m (fun x => k))
  (at level 61, m at next level, right associativity).

(** The result of one [gst_rtmp_sink_render] call. *)
Record Result : Type := mkResult {
  sink : GstRTMPSink;
  flow : GstFlowReturn;
  trace : list Obs
}.

(** ** Construction and the start/stop methods *)

(** [gst_rtmp_sink_init], lines 200-212, on the zero-filled instance that
    GObject hands to it. *)
Definition gst_rtmp_sink_init : GstRTMPSink :=
  {| uri := None; backup_uri := None; rtmp_uri := None; rtmp := None;
     flashver := "gstreamer0.10-rtmp-ubicast"; tcp_timeout := 3;
     reconnection_delay := 10000000000;
     is_backup := false; first := false; have_write_error := false;
     try_now_connection := true;
     connection_status := 0; sent_status := 0; send_error_count := 0;
     disconnection_notified := 1;
     begin_time_disc := 0; end_time_disc := 0; header := None;
     stream_meta_saved := false; video_meta_saved := false;
     audio_meta_saved := false;
     stream_metadata := None; video_metadata := None;
     audio_metadata := None |}.

(** [gst_rtmp_sink_stop], lines 280-300. *)
Definition gst_rtmp_sink_stop (s : GstRTMPSink) : GstRTMPSink * list Obs :=
  let s := set_header None s in
  let t := match rtmp s with
           | Some _ => [RTMP_Close; RTMP_Free]
           | None => []
           end in
  let s := set_rtmp None s in
  let s := set_rtmp_uri None s in
  (s, t).

(** The [error:] label of [gst_rtmp_sink_start], lines 270-277. *)
Definition start_error (s : GstRTMPSink) (t : list Obs)
  : GstRTMPSink * bool * list Obs :=
  let t := match rtmp s with
           | Some _ => t ++ [RTMP_Free]
           | None => t
           end in
  (set_rtmp_uri None (set_rtmp None s), false, t).

(** [gst_rtmp_sink_start], lines 214-278. *)
Definition gst_rtmp_sink_start (env : Transport) (s : GstRTMPSink)
  : GstRTMPSink * bool * list Obs :=
  match (if is_backup s then backup_uri s else uri s) with
  | None =>
      if is_backup s
      then (s, false, [GST_ELEMENT_WARNING "Backup uri is incorrect, can not switch to it"])
      else (s, false, [GST_ELEMENT_ERROR "Please set URI for RTMP output"])
  | Some u =>
      let s := set_rtmp_uri (Some u) s in
      let s := set_rtmp (if alloc_ok env then Some RTMP_context else None) s in
      let t := [RTMP_Alloc (alloc_ok env)] in
      if negb (alloc_ok env) then start_error s t
      else
        let t := t ++ [RTMP_Init; RTMP_SetupURL u (setup_url_ok env u)] in
        if negb (setup_url_ok env u)
        then start_error s (t ++ [GST_ELEMENT_ERROR "Failed to setup URL"])
        else
          let t := t ++ [RTMP_EnableWrite] in
          let s := set_first true s in
          let s := set_have_write_error false s in
          let s := set_first true s in
          (s, true, t)
  end.

(** [copy_metadata], lines 302-308: the slot receives a copy of the
    buffer and the function answers [TRUE]. *)
Definition copy_metadata (buf : GstBuffer) : option GstBuffer * bool :=
  (Some buf, true).

(** The [error:] label of [gst_rtmp_sink_option], lines 338-347. *)
Definition option_error (s : GstRTMPSink) (t : list Obs)
  : GstRTMPSink * bool * list Obs :=
  let t := match rtmp s with
           | Some _ => t ++ [RTMP_Free]
           | None => t
           end in
  (set_rtmp_uri None (set_rtmp None s), false, t).

(** [gst_rtmp_sink_option], lines 310-348. *)
Definition gst_rtmp_sink_option (env : Transport) (s : GstRTMPSink)
  : GstRTMPSink * bool * list Obs :=
  let t := [RTMP_SetOpt "flashver" (set_opt_ok env "flashver")] in
  if negb (set_opt_ok env "flashver")
  then option_error s (t ++ [GST_ELEMENT_ERROR "Failed to set flashver"])
  else
    let t := t ++ [RTMP_SetOpt "timeout" (set_opt_ok env "timeout")] in
    if negb (set_opt_ok env "timeout")
    then option_error s (t ++ [GST_ELEMENT_ERROR "Failed to set flashver"])
    else (s, true, t).

(** The event types [gst_rtmp_sink_event] tells apart. *)
Variant GstEventType : Type := GST_EVENT_FLUSH_STOP | GST_EVENT_OTHER.

(** [gst_rtmp_sink_event], lines 723-737. *)
Definition gst_rtmp_sink_event (ev : GstEventType) (s : GstRTMPSink)
  : GstRTMPSink :=
  match ev with
  | GST_EVENT_FLUSH_STOP => set_have_write_error false s
  | GST_EVENT_OTHER => s
  end.
(** ** Chunk delivery: [gst_rtmp_sink_render] *)

(** [buf->data[0]]: reading it in an empty buffer is undefined. *)
Definition data0 (buf : GstBuffer) : outcome Z :=
  match data buf with
  | b :: _ => Done (Z.of_N (Byte.to_N b))
  | [] => Undefined
  end.

(** [!saved && buf->data[0] == tag], with the short circuit of [&&]. *)
Definition unsaved_and_tagged (saved : bool) (buf : GstBuffer) (tag : Z)
  : outcome bool :=
  if saved then Done false
  else b <- data0 buf ;; Done (b =? tag).

(** Lines 359-374: the first chunk of each kind is kept for replay. *)
Definition save_metadata (s : GstRTMPSink) (buf : GstBuffer)
  : outcome GstRTMPSink :=
  if connection_status s =? 0 then Done s
  else
    c18 <- unsaved_and_tagged (stream_meta_saved s) buf 18 ;;
    if (c18 : bool) then
      let (m, r) := copy_metadata buf in
      Done (set_stream_meta_saved r (set_stream_metadata m s))
    else
      c9 <- unsaved_and_tagged (video_meta_saved s) buf 9 ;;
      if (c9 : bool) then
        let (m, r) := copy_metadata buf in
        Done (set_video_meta_saved r (set_video_metadata m s))
      else
        c8 <- unsaved_and_tagged (audio_meta_saved s) buf 8 ;;
        if (c8 : bool) then
          let (m, r) := copy_metadata buf in
          Done (set_audio_meta_saved r (set_audio_metadata m s))
        else Done s.

(** The condition of lines 376 and 380: the last connect or the last
    send ended in an error. *)
Definition in_error (s : GstRTMPSink) : bool :=
  (sent_status s =? -1) || (connection_status s =? -1).

(** Lines 376-377. *)
Definition note_end_time (s : GstRTMPSink) (buf : GstBuffer) : GstRTMPSink :=
  if in_error s then set_end_time_disc (timestamp buf) s else s.

(** The condition of line 378: a connect attempt is due. *)
Definition retry_due (s : GstRTMPSink) : bool :=
  (u64 (end_time_disc s - begin_time_disc s) >? reconnection_delay s)
  || try_now_connection s.

(** Lines 380-399: after an error the context is rebuilt, on the other
    URI when a backup URI is set. *)
Definition reinitialize (env : Transport) (s : GstRTMPSink)
  : GstRTMPSink * list Obs :=
  if in_error s then
    let '(s, t1) := gst_rtmp_sink_stop s in
    let s := match backup_uri s with
             | Some _ => set_is_backup (negb (is_backup s)) s
             | None => s
             end in
    let '(s, _, t2) := gst_rtmp_sink_start env s in
    (set_begin_time_disc (end_time_disc s) s, t1 ++ t2)
  else (s, []).

(** The [init_failed:] label, lines 511-523. *)
Definition init_failed (s : GstRTMPSink) (t : list Obs) : Result :=
  let t := match rtmp s with
           | Some _ => t ++ [RTMP_Free]
           | None => t
           end in
  let s := set_rtmp None s in
  let s := match rtmp_uri s with
           | Some _ => set_have_write_error true (set_rtmp_uri None s)
           | None => s
           end in
  {| sink := s; flow := GST_FLOW_ERROR; trace := t |}.

(** The [write_failed:] label, lines 525-533. *)
Definition write_failed (s : GstRTMPSink) (t : list Obs) : Result :=
  {| sink := set_have_write_error true s;
     flow := GST_FLOW_ERROR;
     trace := t ++ [GST_ELEMENT_ERROR "Failed to write data"] |}.

(** Lines 410-433: [RTMP_Connect] or [RTMP_ConnectStream] failed. *)
Definition connect_failed (s : GstRTMPSink) (buf : GstBuffer) (t : list Obs)
  : Result :=
  let t := t ++ [RTMP_Free] in
  let s := set_rtmp None s in
  let s := set_try_now_connection false s in
  let s := set_rtmp_uri None s in
  let s := set_connection_status (-1) s in
  let s := set_send_error_count 0 s in
  if reconnection_delay s <=? 0 then init_failed s t
  else
    let s := set_begin_time_disc (timestamp buf) s in
    if disconnection_notified s =? 1 then
      let t := t ++ [gst_element_post_message (disconnected (begin_time_disc s))] in
      let s := set_connection_status (-1) s in
      let s := set_sent_status 0 s in
      let s := set_disconnection_notified 0 s in
      {| sink := s; flow := GST_FLOW_OK; trace := t |}
    else {| sink := s; flow := GST_FLOW_OK; trace := t |}.

(** One of the three statements of lines 459-467: a saved slot is written
    and [connection_status] takes the value [RTMP_Write] returns.  [k]
    counts the [RTMP_Write] calls made so far. *)
Definition replay_slot (env : Transport) (saved : bool) (slot : option GstBuffer)
    (st : GstRTMPSink * list Obs * nat) : outcome (GstRTMPSink * list Obs * nat) :=
  let '(s, t, k) := st in
  if saved then
    match slot with
    | Some m =>
        let r := write_ret env k in
        Done (set_connection_status r s, t ++ [RTMP_Write (data m) r], S k)
    | None => Undefined
    end
  else Done st.

(** Lines 438-479: the connection is open. *)
Definition connected (env : Transport) (s : GstRTMPSink) (buf : GstBuffer)
    (t : list Obs) : outcome Result :=
  let s := set_header (Some buf) s in
  let '(s, t) :=
    if disconnection_notified s =? 0 then
      (set_disconnection_notified 1 s,
       t ++ [gst_element_post_message (reconnected (begin_time_disc s))])
    else if (sent_status s =? -1) && (send_error_count s >=? 2) then
      (set_send_error_count 0 s,
       t ++ [gst_element_post_message (bandwidth (timestamp buf))])
    else (s, t) in
  let s := set_connection_status 1 s in
  st <- replay_slot env (stream_meta_saved s) (stream_metadata s) (s, t, O) ;;
  st <- replay_slot env (video_meta_saved (fst (fst st)))
          (video_metadata (fst (fst st))) st ;;
  st <- replay_slot env (audio_meta_saved (fst (fst st)))
          (audio_metadata (fst (fst st))) st ;;
  let '(s, t, _) := st in
  (* lines 471-476: the join is bound to the local [buf] only *)
  let buf := match header s with
             | Some h => gst_buffer_join h buf
             | None => buf
             end in
  let s := set_first false s in
  Done {| sink := s; flow := GST_FLOW_OK; trace := t |}.

(** Lines 375-480: the branch taken while [first] is set. *)
Definition render_first (env : Transport) (s : GstRTMPSink) (buf : GstBuffer)
  : outcome Result :=
  let s := note_end_time s buf in
  if retry_due s then
    let '(s, t) := reinitialize env s in
    match rtmp s with
    | None => Undefined
    | Some _ =>
        let t := t ++ [RTMP_IsConnected (is_connected env)] in
        if negb (is_connected env) then
          let '(s, result, t') := gst_rtmp_sink_option env s in
          let t := t ++ t' in
          if negb result then
            Done (init_failed s
                    (t ++ [GST_ELEMENT_ERROR "Could not set options, please check them"]))
          else
            let t := t ++ [RTMP_Connect (connect_ok env)] in
            if negb (connect_ok env) then Done (connect_failed s buf t)
            else
              let t := t ++ [RTMP_ConnectStream (connect_stream_ok env)] in
              if negb (connect_stream_ok env) then Done (connect_failed s buf t)
              else connected env s buf t
        else connected env s buf t
    end
  else Done {| sink := s; flow := GST_FLOW_OK; trace := [] |}.

(** Lines 498-509: a send error arms an immediate reconnection. *)
Definition after_send (s : GstRTMPSink) (buf : GstBuffer) (t : list Obs)
  : Result :=
  let s :=
    if sent_status s =? -1 then
      let s := set_send_error_count (u32 (send_error_count s + 1)) s in
      let s := set_first true s in
      let s := set_begin_time_disc (timestamp buf) s in
      set_try_now_connection true s
    else s in
  {| sink := s; flow := GST_FLOW_OK; trace := t |}.

(** Lines 482-509: the branch taken once [first] is cleared. *)
Definition render_send (env : Transport) (s : GstRTMPSink) (buf : GstBuffer)
  : outcome Result :=
  if have_write_error s then Done (write_failed s [])
  else if connection_status s >? 0 then
    match rtmp s with
    | None => Undefined
    | Some _ =>
        let r := write_ret env O in
        let s := set_sent_status r s in
        let t := [RTMP_Write (data buf) r] in
        if r =? 0 then
          Done {| sink := s; flow := GST_FLOW_ERROR;
                  trace := t ++ [GST_ELEMENT_ERROR
                                   "Allocation or flv packet too small error"] |}
        else Done (after_send s buf t)
    end
  else Done (after_send s buf []).

(** [gst_rtmp_sink_render], lines 350-534. *)
Definition gst_rtmp_sink_render (env : Transport) (s : GstRTMPSink)
    (buf : GstBuffer) : outcome Result :=
  s <- save_metadata s buf ;;
  if first s then render_first env s buf else render_send env s buf.

(** A run of consecutive deliveries, each with the answers librtmp gives
    during it; the results are listed in delivery order. *)
Fixpoint deliver_all (s : GstRTMPSink) (l : list (GstBuffer * Transport))
  : outcome (GstRTMPSink * list Result) :=
  match l with
  | [] => Done (s, [])
  | (buf, env) :: l' =>
      r <- gst_rtmp_sink_render env s buf ;;
      x <- deliver_all (sink r) l' ;;
      Done (fst x, r :: snd x)
  end.

(** ** Reading a trace *)

(** The element messages posted during a call, in order. *)
Definition messages_of (t : list Obs) : list Message :=
  flat_map (fun o => match o with
                     | gst_element_post_message m => [m]
                     | _ => []
                     end) t.

(** The byte strings handed to [RTMP_Write], in order. *)
Definition written (t : list Obs) : list (list byte) :=
  flat_map (fun o => match o with
                     | RTMP_Write b _ => [b]
                     | _ => []
                     end) t.

(** The values [RTMP_Write] returned, in order. *)
Definition write_results (t : list Obs) : list Z :=
  flat_map (fun o => match o with
                     | RTMP_Write _ r => [r]
                     | _ => []
                     end) t.

(** A connect attempt was made and [RTMP_Connect] or [RTMP_ConnectStream]
    reported failure. *)
Definition connect_refused (t : list Obs) : bool :=
  existsb (fun o => match o with
                    | RTMP_Connect ok | RTMP_ConnectStream ok => negb ok
                    | _ => false
                    end) t.

(** The call found or made an open connection: [RTMP_IsConnected] answered
    true, or the connect sequence went through. *)
Definition connection_open (t : list Obs) : bool :=
  existsb (fun o => match o with
                    | RTMP_IsConnected ok | RTMP_ConnectStream ok => ok
                    | _ => false
                    end) t.

(** A stretch of trace in which nothing is sent, posted or connected. *)
Definition quiet (t : list Obs) : Prop :=
  messages_of t = [] /\ written t = [] /\ write_results t = [] /\
  connect_refused t = false /\ connection_open t = false.

(** The type tag of a chunk, [buf->data[0]], compared with [tag]. *)
Definition tag_is (buf : GstBuffer) (tag : Z) : bool :=
  match data buf with
  | b :: _ => Z.of_N (Byte.to_N b) =? tag
  | [] => false
  end.

(** A slot takes the chunk when the connection status is not zero, the
    slot is still free and the chunk carries the slot's tag. *)
Definition captures (s : GstRTMPSink) (saved : bool) (buf : GstBuffer) (tag : Z)
  : bool :=
  negb (connection_status s =? 0) && negb saved && tag_is buf tag.

(** The bytes of a slot that is replayed. *)
Definition slot_bytes (saved : bool) (slot : option GstBuffer) : list (list byte) :=
  if saved then match slot with Some m => [data m] | None => [] end else [].

(** What a replay sends: the saved slots, stream metadata first, then
    video, then audio. *)
Definition replay_plan (s : GstRTMPSink) : list (list byte) :=
  slot_bytes (stream_meta_saved s) (stream_metadata s)
  ++ slot_bytes (video_meta_saved s) (video_metadata s)
  ++ slot_bytes (audio_meta_saved s) (audio_metadata s).

(** What one slot contributes to a replay, read on entry to the delivery:
    the delivered chunk when the slot takes it, otherwise what the slot
    already holds. *)
Definition kept_or_captured (s : GstRTMPSink) (saved : bool)
    (slot : option GstBuffer) (buf : GstBuffer) (tag : Z) : list (list byte) :=
  if captures s saved buf tag then [data buf] else slot_bytes saved slot.

(** What a replay sends, in terms of the state on entry to the delivery
    and the delivered chunk. *)
Definition replay_on_entry (s : GstRTMPSink) (buf : GstBuffer)
  : list (list byte) :=
  kept_or_captured s (stream_meta_saved s) (stream_metadata s) buf 18
  ++ kept_or_captured s (video_meta_saved s) (video_metadata s) buf 9
  ++ kept_or_captured s (audio_meta_saved s) (audio_metadata s) buf 8.

(** Whether the bandwidth message of lines 449-456 is due. *)
Definition bandwidth_due (s : GstRTMPSink) : bool :=
  negb (disconnection_notified s =? 0)
  && ((sent_status s =? -1) && (send_error_count s >=? 2)).

(** The message posted when a connection opens, lines 441-456. *)
Definition connect_message (s : GstRTMPSink) (buf : GstBuffer) : list Message :=
  if disconnection_notified s =? 0 then [reconnected (begin_time_disc s)]
  else if (sent_status s =? -1) && (send_error_count s >=? 2)
       then [bandwidth (timestamp buf)]
       else [].

(** The [RTMP_Write] calls of a replay, numbered from [k]. *)
Fixpoint writes_from (env : Transport) (k : nat) (l : list (list byte))
  : list Obs :=
  match l with
  | [] => []
  | b :: l' => RTMP_Write b (write_ret env k) :: writes_from env (S k) l'
  end.

(** ** The URI handler, the properties and the caps *)

Definition set_tcp_timeout (v : Z) (s : GstRTMPSink) : GstRTMPSink :=
  {| uri := uri s; backup_uri := backup_uri s; rtmp_uri := rtmp_uri s;
     rtmp := rtmp s; flashver := flashver s; tcp_timeout := v;
     reconnection_delay := reconnection_delay s; is_backup := is_backup s;
     first := first s; have_write_error := have_write_error s;
     try_now_connection := try_now_connection s;
     connection_status := connection_status s;
     sent_status := sent_status s; send_error_count := send_error_count s;
     disconnection_notified := disconnection_notified s;
     begin_time_disc := begin_time_disc s; end_time_disc := end_time_disc s;
     header := header s; stream_meta_saved := stream_meta_saved s;
     video_meta_saved := video_meta_saved s;
     audio_meta_saved := audio_meta_saved s;
     stream_metadata := stream_metadata s;
     video_metadata := video_metadata s;
     audio_metadata := audio_metadata s |}.

Definition set_flashver (v : string) (s : GstRTMPSink) : GstRTMPSink :=
  {| uri := uri s; backup_uri := backup_uri s; rtmp_uri := rtmp_uri s;
     rtmp := rtmp s; flashver := v; tcp_timeout := tcp_timeout s;
     reconnection_delay := reconnection_delay s; is_backup := is_backup s;
     first := first s; have_write_error := have_write_error s;
     try_now_connection := try_now_connection s;
     connection_status := connection_status s;
     sent_status := sent_status s; send_error_count := send_error_count s;
     disconnection_notified := disconnection_notified s;
     begin_time_disc := begin_time_disc s; end_time_disc := end_time_disc s;
     header := header s; stream_meta_saved := stream_meta_saved s;
     video_meta_saved := video_meta_saved s;
     audio_meta_saved := audio_meta_saved s;
     stream_metadata := stream_metadata s;
     video_metadata := video_metadata s;
     audio_metadata := audio_metadata s |}.

(** The element states, in the order of the [GstState] enumeration. *)
Variant GstState : Type :=
| GST_STATE_VOID_PENDING
| GST_STATE_NULL
| GST_STATE_READY
| GST_STATE_PAUSED
| GST_STATE_PLAYING.

(** [GST_STATE (sink) >= GST_STATE_PAUSED]. *)
Definition paused_or_playing (st : GstState) : bool :=
  match st with
  | GST_STATE_PAUSED | GST_STATE_PLAYING => true
  | _ => false
  end.

(** What [RTMP_ParseURL] hands back of a URL it accepts: the lengths of
    the host and of the play path ([host.av_len], [playpath.av_len]). *)
Record ParsedURL : Type := mkParsedURL {
  host_len : Z;
  playpath_len : Z
}.

(** [RTMP_ParseURL] as an oracle: [None] when it answers [FALSE]. *)
Definition UrlParser : Type := string -> option ParsedURL.

(** The test of lines 583-584: the URL is rejected when [RTMP_ParseURL]
    fails or leaves the host or the play path empty. *)
Definition url_rejected (parse : UrlParser) (u : string) : bool :=
  match parse u with
  | None => true
  | Some p => (host_len p =? 0) || (playpath_len p =? 0)
  end.

(** The URI the handler stores for a new value: none for a [NULL] string
    and for a URL that is rejected. *)
Definition accepted_uri (parse : UrlParser) (v : option string)
  : option string :=
  match v with
  | Some u => if url_rejected parse u then None else Some u
  | None => None
  end.

(** [gst_rtmp_sink_uri_get_uri], lines 555-561. *)
Definition gst_rtmp_sink_uri_get_uri (s : GstRTMPSink) : option string :=
  uri s.

(** [gst_rtmp_sink_uri_set_uri], lines 563-601.  [new_uri] is [None] for
    a [NULL] string.  The local [ret] only guards a debug line; the
    function answers [TRUE] once past the state test. *)
Definition gst_rtmp_sink_uri_set_uri (st : GstState) (parse : UrlParser)
    (new_uri : option string) (s : GstRTMPSink)
  : GstRTMPSink * bool * list Obs :=
  if paused_or_playing st then (s, false, [])
  else
    let '(real_uri, t) :=
      match new_uri with
      | None => (None, [])
      | Some u =>
          if url_rejected parse u
          then (None, [GST_ELEMENT_ERROR "Failed to parse URI"])
          else (Some u, [])
      end in
    let s := if is_backup s then set_backup_uri real_uri s
             else set_uri real_uri s in
    (s, true, t).

(** A property together with the value GObject hands to
    [gst_rtmp_sink_set_property]; [PROP_0] stands for any other id.  The
    string of [PROP_FLASHVER] is taken non-[NULL]: the field is read with
    [strlen] in [gst_rtmp_sink_option]. *)
Variant PropertyValue : Type :=
| PROP_LOCATION (v : option string)
| PROP_BACKUP_LOCATION (v : option string)
| PROP_RECONNECTION_DELAY (v : Z)
| PROP_TCP_TIMEOUT (v : Z)
| ARG_LOG_LEVEL (v : Z)
| PROP_FLASHVER (v : string)
| PROP_0.

(** The property ids, as [gst_rtmp_sink_get_property] receives them. *)
Variant PropertyId : Type :=
| ID_LOCATION
| ID_BACKUP_LOCATION
| ID_RECONNECTION_DELAY
| ID_TCP_TIMEOUT
| ID_LOG_LEVEL
| ID_FLASHVER
| ID_0.

Definition property_id (p : PropertyValue) : PropertyId :=
  match p with
  | PROP_LOCATION _ => ID_LOCATION
  | PROP_BACKUP_LOCATION _ => ID_BACKUP_LOCATION
  | PROP_RECONNECTION_DELAY _ => ID_RECONNECTION_DELAY
  | PROP_TCP_TIMEOUT _ => ID_TCP_TIMEOUT
  | ARG_LOG_LEVEL _ => ID_LOG_LEVEL
  | PROP_FLASHVER _ => ID_FLASHVER
  | PROP_0 => ID_0
  end.

(** The element together with librtmp's global [RTMP_debuglevel]. *)
Record Element : Type := mkElement {
  element_sink : GstRTMPSink;
  RTMP_debuglevel : Z
}.

(** [gst_rtmp_sink_set_property], lines 614-648. *)
Definition gst_rtmp_sink_set_property (st : GstState) (parse : UrlParser)
    (p : PropertyValue) (e : Element) : Element * list Obs :=
  let s := element_sink e in
  match p with
  | PROP_LOCATION v =>
      let '(s, _, t) := gst_rtmp_sink_uri_set_uri st parse v s in
      ({| element_sink := s; RTMP_debuglevel := RTMP_debuglevel e |}, t)
  | PROP_BACKUP_LOCATION v =>
      let s := set_is_backup true s in
      let '(s, _, t) := gst_rtmp_sink_uri_set_uri st parse v s in
      let s := set_is_backup false s in
      ({| element_sink := s; RTMP_debuglevel := RTMP_debuglevel e |}, t)
  | PROP_RECONNECTION_DELAY v =>
      ({| element_sink := set_reconnection_delay v s;
          RTMP_debuglevel := RTMP_debuglevel e |}, [])
  | PROP_TCP_TIMEOUT v =>
      ({| element_sink := set_tcp_timeout v s;
          RTMP_debuglevel := RTMP_debuglevel e |}, [])
  | ARG_LOG_LEVEL v =>
      ({| element_sink := s; RTMP_debuglevel := v |}, [])
  | PROP_FLASHVER v =>
      ({| element_sink := set_flashver v s;
          RTMP_debuglevel := RTMP_debuglevel e |}, [])
  | PROP_0 => (e, [])
  end.

(** The values [gst_rtmp_sink_get_property] stores in the [GValue]. *)
Variant GValue : Type :=
| G_STRING (v : option string)
| G_UINT64 (v : Z)
| G_UINT (v : Z)
| G_INT (v : Z).

(** [gst_rtmp_sink_get_property], lines 650-679; [None] when the id is
    not one of the element's and the [GValue] is left alone. *)
Definition gst_rtmp_sink_get_property (id : PropertyId) (e : Element)
  : option GValue :=
  let s := element_sink e in
  match id with
  | ID_LOCATION => Some (G_STRING (uri s))
  | ID_BACKUP_LOCATION => Some (G_STRING (backup_uri s))
  | ID_RECONNECTION_DELAY => Some (G_UINT64 (reconnection_delay s))
  | ID_TCP_TIMEOUT => Some (G_UINT (tcp_timeout s))
  | ID_LOG_LEVEL => Some (G_INT (RTMP_debuglevel e))
  | ID_FLASHVER => Some (G_STRING (Some (flashver s)))
  | ID_0 => None
  end.

(** [GST_CLOCK_TIME_NONE], the timestamp of a buffer made by
    [gst_buffer_new]. *)
Definition GST_CLOCK_TIME_NONE : Z := 2 ^ 64 - 1.

Definition gst_buffer_new : GstBuffer :=
  {| data := []; timestamp := GST_CLOCK_TIME_NONE |}.

(** [gst_rtmp_sink_setcaps], lines 681-721.  [streamheader] is the array
    held by the field of that name in the first caps structure, [None]
    when the field is missing: the array is then read through a [NULL]
    pointer. *)
Definition gst_rtmp_sink_setcaps (streamheader : option (list GstBuffer))
    (s : GstRTMPSink) : outcome (GstRTMPSink * bool) :=
  let s := set_header None s in
  let s := set_header (Some gst_buffer_new) s in
  match streamheader with
  | None => Undefined
  | Some buffers =>
      let h := fold_left gst_buffer_join buffers gst_buffer_new in
      Done (set_header (Some h) s, true)
  end.

(** ** Reading a trace, continued *)

(** A [RTMP_SetOpt] call was refused. *)
Definition option_refused (t : list Obs) : bool :=
  existsb (fun o => match o with
                    | RTMP_SetOpt _ ok => negb ok
                    | _ => false
                    end) t.

(** [RTMP_Connect] was called. *)
Definition connect_attempted (t : list Obs) : bool :=
  existsb (fun o => match o with
                    | RTMP_Connect _ => true
                    | _ => false
                    end) t.

(** [RTMP_IsConnected] was called: the delivery went as far as looking at
    the connection. *)
Definition connection_probed (t : list Obs) : bool :=
  existsb (fun o => match o with
                    | RTMP_IsConnected _ => true
                    | _ => false
                    end) t.

(** The URLs handed to [RTMP_SetupURL], in order. *)
Definition urls_set_up (t : list Obs) : list string :=
  flat_map (fun o => match o with
                     | RTMP_SetupURL u _ => [u]
                     | _ => []
                     end) t.

(** The URI of the role that is active. *)
Definition active_uri (s : GstRTMPSink) : option string :=
  if is_backup s then backup_uri s else uri s.

(** The role a reconnection after an error switches to: the other one
    when a backup URI is set (lines 383-396). *)
Definition switched_is_backup (s : GstRTMPSink) : bool :=
  match backup_uri s with
  | Some _ => negb (is_backup s)
  | None => is_backup s
  end.

(** The URI of that role. *)
Definition reconnect_uri (s : GstRTMPSink) : option string :=
  if switched_is_backup s then backup_uri s else uri s.

(** The librtmp context seen from the trace: [live] tells whether a
    context is allocated.  Every call that takes the context needs it
    allocated, [RTMP_Free] releases it, and [RTMP_Alloc] is only made when
    none is held.  The result is the state of the context after the trace,
    [None] when the trace breaks these rules. *)
Fixpoint context_after (live : bool) (t : list Obs) : option bool :=
  match t with
  | [] => Some live
  | o :: t' =>
      match o with
      | RTMP_Alloc ok => if live then None else context_after ok t'
      | RTMP_Free => if live then context_after false t' else None
      | RTMP_Close | RTMP_Init | RTMP_SetupURL _ _ | RTMP_EnableWrite
      | RTMP_IsConnected _ | RTMP_SetOpt _ _ | RTMP_Connect _
      | RTMP_ConnectStream _ | RTMP_Write _ _ =>
          if live then context_after live t' else None
      | gst_element_post_message _ | GST_ELEMENT_ERROR _
      | GST_ELEMENT_WARNING _ => context_after live t'
      end
  end.

(** Whether the [RTMP *] field holds a context. *)
Definition has_context (s : GstRTMPSink) : bool :=
  match rtmp s with
  | Some _ => true
  | None => false
  end.

(** The state in which the element waits to reconnect after a notified
    disconnection. *)
Definition awaiting_reconnection (s : GstRTMPSink) : Prop :=
  first s = true /\ connection_status s = -1 /\ sent_status s = 0 /\
  send_error_count s = 0.

(** [disconnection_notified] is 1, or it is 0 and the element waits to
    reconnect. *)
Definition notification_consistent (s : GstRTMPSink) : Prop :=
  disconnection_notified s = 1 \/
  (disconnection_notified s = 0 /\ awaiting_reconnection s).

(** ** Sample configurations *)

(** A server that accepts the connection and takes every packet. *)
Definition server_up : Transport :=
  {| alloc_ok := true; setup_url_ok := fun _ => true; is_connected := false;
     set_opt_ok := fun _ => true; connect_ok := true;
     connect_stream_ok := true; write_ret := fun _ => 16 |}.

(** A server that refuses the connection. *)
Definition server_down : Transport :=
  {| alloc_ok := true; setup_url_ok := fun _ => true; is_connected := false;
     set_opt_ok := fun _ => true; connect_ok := false;
     connect_stream_ok := false; write_ret := fun _ => -1 |}.

(** A server that accepts the connection and then fails every send. *)
Definition server_up_send_fails : Transport :=
  {| alloc_ok := true; setup_url_ok := fun _ => true; is_connected := false;
     set_opt_ok := fun _ => true; connect_ok := true;
     connect_stream_ok := true; write_ret := fun _ => -1 |}.

(** The element with its location set, and the same after [start]. *)
Definition configured : GstRTMPSink :=
  set_uri (Some "rtmp://localhost/live/stream") gst_rtmp_sink_init.

Definition started : GstRTMPSink :=
  fst (fst (gst_rtmp_sink_start server_up configured)).

(** FLV tags of the three kinds the element tells apart. *)
Definition script_chunk : GstBuffer :=
  {| data := [x12; x00; x00; x01; x00; x00; x00; x00; x00; x00; x00;
              x02; x00; x00; x00; x0c];
     timestamp := 0 |}.

Definition video_chunk : GstBuffer :=
  {| data := [x09; x00; x00; x01; x00; x00; x28; x00; x00; x00; x00;
              x17; x00; x00; x00; x0c];
     timestamp := 40000000 |}.

Definition audio_chunk : GstBuffer :=
  {| data := [x08; x00; x00; x01; x00; x00; x50; x00; x00; x00; x00;
              xaf; x00; x00; x00; x0c];
     timestamp := 80000000 |}.

(** A video tag that arrives after the default reconnection delay. *)
Definition late_video_chunk : GstBuffer :=
  {| data := [x09; x00; x00; x01; x00; x2a; xf8; x00; x00; x00; x00;
              x27; x00; x00; x00; x0c];
     timestamp := 11000000000 |}.

(** The state a run of deliveries ends in. *)
Definition after (s : GstRTMPSink) (l : list (GstBuffer * Transport))
  : GstRTMPSink :=
  match deliver_all s l with
  | Done (s', _) => s'
  | Undefined => s
  end.

(** Connected, all three metadata slots filled. *)
Definition streaming : GstRTMPSink :=
  after started [(script_chunk, server_up); (script_chunk, server_up);
                 (video_chunk, server_up); (audio_chunk, server_up)].

(** The same after a send error. *)
Definition send_failed : GstRTMPSink :=
  after streaming [(video_chunk, server_up_send_fails)].

(** The same after the reconnection that follows. *)
Definition resumed : GstRTMPSink :=
  after send_failed [(video_chunk, server_up)].

(** The started element after the server refused the first connection. *)
Definition refused : GstRTMPSink :=
  after started [(script_chunk, server_down)].

(** A video tag that arrives two reconnection delays later still. *)
Definition later_video_chunk : GstBuffer :=
  {| data := [x09; x00; x00; x01; x00; x55; xf0; x00; x00; x00; x00;
              x27; x00; x00; x00; x0c];
     timestamp := 22000000000 |}.

(** The started element with a backup URI, after the server refused the
    first connection. *)
Definition refused_with_backup : GstRTMPSink :=
  after (set_backup_uri (Some "rtmp://backup.example/live/stream") started)
        [(script_chunk, server_down)].

(** A server that accepts the connection while librtmp refuses the
    options. *)
Definition options_refused : Transport :=
  {| alloc_ok := true; setup_url_ok := fun _ => true; is_connected := false;
     set_opt_ok := fun _ => false; connect_ok := true;
     connect_stream_ok := true; write_ret := fun _ => 16 |}.

(** librtmp rejecting every URL it is asked to set up. *)
Definition url_setup_fails : Transport :=
  {| alloc_ok := true; setup_url_ok := fun _ => false; is_connected := false;
     set_opt_ok := fun _ => true; connect_ok := true;
     connect_stream_ok := true; write_ret := fun _ => 16 |}.

(** Reconnected after a notified disconnection, with every replay write
    failing. *)
Definition replay_failed : GstRTMPSink :=
  after streaming [(video_chunk, server_up_send_fails);
                   (audio_chunk, server_down);
                   (late_video_chunk, server_up_send_fails)].

(** A parser that accepts the URLs with a host and a play path used in
    the samples and rejects everything else. *)
Definition sample_parser : UrlParser :=
  fun u =>
    if String.eqb u "rtmp://localhost/live/stream"
    then Some {| host_len := 9; playpath_len := 6 |}
    else if String.eqb u "rtmp://backup.example/live/stream"
    then Some {| host_len := 14; playpath_len := 6 |}
    else if String.eqb u "rtmp://localhost/"
    then Some {| host_len := 9; playpath_len := 0 |}
    else None.

(** The stream header buffers of a caps. *)
Definition sample_streamheader : list GstBuffer :=
  [ {| data := [x46; x4c; x56; x01; x05; x00; x00; x00; x09;
                x00; x00; x00; x00];
       timestamp := GST_CLOCK_TIME_NONE |};
    script_chunk ].

(** A connection on which [RTMP_Write] takes nothing. *)
Definition server_takes_nothing : Transport :=
  {| alloc_ok := true; setup_url_ok := fun _ => true; is_connected := true;
     set_opt_ok := fun _ => true; connect_ok := true;
     connect_stream_ok := true; write_ret := fun _ => 0 |}.

(** ** Proof support *)

(** Normal form of a sink built with the field setters. *)
Ltac norm_sink :=
  cbv beta iota delta
    [set_uri set_backup_uri set_rtmp_uri set_rtmp
     set_reconnection_delay set_is_backup set_first
     set_have_write_error set_try_now_connection set_connection_status
     set_sent_status set_send_error_count set_disconnection_notified
     set_begin_time_disc set_end_time_disc set_header
     set_stream_meta_saved set_video_meta_saved set_audio_meta_saved
     set_stream_metadata set_video_metadata set_audio_metadata uri
     backup_uri rtmp_uri rtmp flashver tcp_timeout reconnection_delay
     is_backup first have_write_error try_now_connection
     connection_status sent_status send_error_count
     disconnection_notified begin_time_disc end_time_disc header
     stream_meta_saved video_meta_saved audio_meta_saved
     stream_metadata video_metadata audio_metadata].

(** The same in the hypotheses as well. *)
Ltac norm_sink_all :=
  cbv beta iota delta
    [set_uri set_backup_uri set_rtmp_uri set_rtmp
     set_reconnection_delay set_is_backup set_first
     set_have_write_error set_try_now_connection set_connection_status
     set_sent_status set_send_error_count set_disconnection_notified
     set_begin_time_disc set_end_time_disc set_header
     set_stream_meta_saved set_video_meta_saved set_audio_meta_saved
     set_stream_metadata set_video_metadata set_audio_metadata uri
     backup_uri rtmp_uri rtmp flashver tcp_timeout reconnection_delay
     is_backup first have_write_error try_now_connection
     connection_status sent_status send_error_count
     disconnection_notified begin_time_disc end_time_disc header
     stream_meta_saved video_meta_saved audio_meta_saved
     stream_metadata video_metadata audio_metadata] in *.

(** Case analysis on a condition tested in [H]. *)
Ltac case_in H :=
  match type of H with
  | context [match ?x with _ => _ end] =>
      let E := fresh "E" in destruct x eqn:E
  end.

Lemma messages_of_app t1 t2 :
  messages_of (t1 ++ t2) = messages_of t1 ++ messages_of t2.
Proof. apply flat_map_app. Qed.

Lemma written_app t1 t2 : written (t1 ++ t2) = written t1 ++ written t2.
Proof. apply flat_map_app. Qed.

Lemma write_results_app t1 t2 :
  write_results (t1 ++ t2) = write_results t1 ++ write_results t2.
Proof. apply flat_map_app. Qed.

Lemma connect_refused_app t1 t2 :
  connect_refused (t1 ++ t2) = connect_refused t1 || connect_refused t2.
Proof. apply existsb_app. Qed.

Lemma connection_open_app t1 t2 :
  connection_open (t1 ++ t2) = connection_open t1 || connection_open t2.
Proof. apply existsb_app. Qed.

Create Rewrite HintDb trace.
#[local] Hint Rewrite messages_of_app written_app write_results_app
  connect_refused_app connection_open_app : trace.

Lemma quiet_nil : quiet [].
Proof. repeat split. Qed.

Lemma quiet_app t1 t2 : quiet t1 -> quiet t2 -> quiet (t1 ++ t2).
Proof.
  intros (a1 & a2 & a3 & a4 & a5) (b1 & b2 & b3 & b4 & b5).
  unfold quiet. autorewrite with trace.
  rewrite a1, a2, a3, a4, a5, b1, b2, b3, b4, b5. repeat split.
Qed.

(** *** The metadata slots *)

Lemma save_metadata_shape s buf s1 :
  save_metadata s buf = Done s1 ->
  s1 =
  set_stream_meta_saved
    (stream_meta_saved s || captures s (stream_meta_saved s) buf 18)
    (set_stream_metadata
       (if captures s (stream_meta_saved s) buf 18 then Some buf
        else stream_metadata s)
  (set_video_meta_saved
    (video_meta_saved s || captures s (video_meta_saved s) buf 9)
    (set_video_metadata
       (if captures s (video_meta_saved s) buf 9 then Some buf
        else video_metadata s)
  (set_audio_meta_saved
    (audio_meta_saved s || captures s (audio_meta_saved s) buf 8)
    (set_audio_metadata
       (if captures s (audio_meta_saved s) buf 8 then Some buf
        else audio_metadata s) s))))).
Proof.
  unfold save_metadata, unsaved_and_tagged, data0, bind, copy_metadata,
    captures, tag_is.
  intros H. destruct (connection_status s =? 0) eqn:E0.
  { injection H as <-. cbn. rewrite !orb_false_r. destruct s; reflexivity. }
  destruct (stream_meta_saved s) eqn:E1, (video_meta_saved s) eqn:E2,
    (audio_meta_saved s) eqn:E3, (data buf) as [|b l] eqn:E4;
    cbn in H |- *; try discriminate H;
    try (destruct (Z.of_N (to_N b) =? 18) eqn:T18; cbn in H |- *);
    try (destruct (Z.of_N (to_N b) =? 9) eqn:T9; cbn in H |- *);
    try (destruct (Z.of_N (to_N b) =? 8) eqn:T8; cbn in H |- *);
    repeat match goal with
           | E : (_ =? _) = true |- _ => apply Z.eqb_eq in E
           | E : (_ =? _) = false |- _ => clear E
           end;
    try (exfalso; lia);
    injection H as <-; destruct s; cbn in *; subst; reflexivity.
Qed.

(** *** Rebuilding the context *)

Lemma gst_rtmp_sink_stop_shape s s' t :
  gst_rtmp_sink_stop s = (s', t) ->
  s' = set_rtmp_uri None (set_rtmp None (set_header None s)) /\ quiet t.
Proof.
  unfold gst_rtmp_sink_stop. cbn. intros H. injection H as <- <-.
  split; [reflexivity|]. destruct (rtmp s); repeat split.
Qed.

Lemma gst_rtmp_sink_start_shape env s s' ok t :
  gst_rtmp_sink_start env s = (s', ok, t) ->
  (exists r u,
      s' = set_have_write_error (have_write_error s && negb ok)
             (set_first (first s || ok) (set_rtmp r (set_rtmp_uri u s))))
  /\ quiet t.
Proof.
  unfold gst_rtmp_sink_start, start_error. intros H.
  destruct s; cbn in H.
  repeat (first [discriminate H | case_in H]; cbn in H);
    cbn in *; try congruence;
    injection H as <- <- <-;
    (split; [do 2 eexists; norm_sink; cbn;
             rewrite ?andb_true_r, ?orb_false_r, ?orb_true_r, ?andb_false_r;
             reflexivity
            | repeat split]).
Qed.

Lemma reinitialize_shape env s s' t :
  reinitialize env s = (s', t) ->
  (exists r u b ok bt,
      s' = set_begin_time_disc bt
             (set_have_write_error (have_write_error s && negb ok)
             (set_first (first s || ok)
             (set_is_backup b (set_rtmp r (set_rtmp_uri u
                (set_header (if in_error s then None else header s) s)))))))
  /\ quiet t.
Proof.
  unfold reinitialize. intros H. destruct (in_error s) eqn:Herr.
  - destruct (gst_rtmp_sink_stop s) as [s1 t1] eqn:Hstop.
    apply gst_rtmp_sink_stop_shape in Hstop as (-> & Hq1).
    match type of H with
    | context [gst_rtmp_sink_start env ?x] =>
        destruct (gst_rtmp_sink_start env x) as [[s2 ok] t2] eqn:Hstart
    end.
    injection H as <- <-.
    apply gst_rtmp_sink_start_shape in Hstart as ((r & u & ->) & Hq2).
    split; [|now apply quiet_app].
    destruct s; cbn in *.
    destruct backup_uri0; exists r, u; eexists; exists ok; eexists;
      norm_sink; reflexivity.
  - injection H as <- <-. split; [|apply quiet_nil].
    destruct s. do 3 eexists; exists false; eexists. norm_sink. cbn.
    rewrite andb_true_r, orb_false_r. reflexivity.
Qed.

Lemma gst_rtmp_sink_option_shape env s s' ok t :
  gst_rtmp_sink_option env s = (s', ok, t) ->
  s' = (if ok then s else set_rtmp_uri None (set_rtmp None s)) /\ quiet t.
Proof.
  unfold gst_rtmp_sink_option, option_error. intros H.
  repeat (first [discriminate H | case_in H]; cbn in H);
    cbn in *; try congruence;
    injection H as <- <- <-; (split; [reflexivity | repeat split]).
Qed.

Lemma note_end_time_shape s buf :
  note_end_time s buf =
  set_end_time_disc (if in_error s then timestamp buf else end_time_disc s) s.
Proof.
  unfold note_end_time. destruct (in_error s); [reflexivity|].
  destruct s; reflexivity.
Qed.

(** *** An open connection *)

Lemma writes_from_written env l k : written (writes_from env k l) = l.
Proof. revert k; induction l as [|b l IH]; intros k; cbn; [|f_equal; apply IH]; reflexivity. Qed.

Lemma writes_from_results env l k :
  write_results (writes_from env k l) = map (write_ret env) (seq k (List.length l)).
Proof. revert k; induction l as [|b l IH]; intros k; cbn; [|f_equal; apply IH]; reflexivity. Qed.

Lemma writes_from_messages env l k : messages_of (writes_from env k l) = [].
Proof. revert k; induction l as [|b l IH]; intros k; cbn; auto. Qed.

Lemma writes_from_refused env l k : connect_refused (writes_from env k l) = false.
Proof. revert k; induction l as [|b l IH]; intros k; cbn; auto. Qed.

Lemma writes_from_open env l k : connection_open (writes_from env k l) = false.
Proof. revert k; induction l as [|b l IH]; intros k; cbn; auto. Qed.

Lemma posted_messages l : messages_of (map gst_element_post_message l) = l.
Proof. induction l as [|m l IH]; cbn; [|f_equal; apply IH]; reflexivity. Qed.

Lemma posted_written l : written (map gst_element_post_message l) = [].
Proof. induction l; cbn; auto. Qed.

Lemma posted_results l : write_results (map gst_element_post_message l) = [].
Proof. induction l; cbn; auto. Qed.

Lemma posted_refused l : connect_refused (map gst_element_post_message l) = false.
Proof. induction l; cbn; auto. Qed.

Lemma posted_open l : connection_open (map gst_element_post_message l) = false.
Proof. induction l; cbn; auto. Qed.

#[local] Hint Rewrite writes_from_written writes_from_results
  writes_from_messages writes_from_refused writes_from_open
  posted_messages posted_written posted_results posted_refused posted_open
  app_nil_r orb_false_r : trace.

Lemma connected_shape env s buf t r :
  connected env s buf t = Done r ->
  flow r = GST_FLOW_OK /\
  sink r =
    set_first false
      (set_connection_status
         (last (map (write_ret env) (seq 0 (List.length (replay_plan s)))) 1)
      (set_send_error_count
         (if bandwidth_due s then 0 else send_error_count s)
      (set_disconnection_notified
         (if disconnection_notified s =? 0 then 1 else disconnection_notified s)
      (set_header (Some buf) s)))) /\
  trace r =
    t ++ map gst_element_post_message (connect_message s buf)
      ++ writes_from env 0 (replay_plan s).
Proof.
  unfold connected, replay_slot, bind, connect_message, bandwidth_due,
    replay_plan, slot_bytes.
  cbn [disconnection_notified sent_status send_error_count set_header
       stream_meta_saved video_meta_saved audio_meta_saved
       stream_metadata video_metadata audio_metadata begin_time_disc].
  intros H.
  destruct (disconnection_notified s =? 0) eqn:En;
    [| destruct ((sent_status s =? -1) && (send_error_count s >=? 2)) eqn:Eb ];
    cbn in H;
    destruct (stream_meta_saved s), (stream_metadata s);
    cbn in H; try discriminate H;
    destruct (video_meta_saved s), (video_metadata s);
    cbn in H; try discriminate H;
    destruct (audio_meta_saved s), (audio_metadata s);
    cbn in H; try discriminate H; injection H as <-;
    cbn [flow sink trace negb andb];
    (split; [reflexivity | split; [norm_sink; cbn; reflexivity |]]);
    cbn; rewrite <- ?app_assoc; cbn; rewrite ?app_nil_r; reflexivity.
Qed.

(** *** Walking through one delivery *)

(** Splits a completed delivery [H : gst_rtmp_sink_render env s buf = Done r]
    into the ways the function can be left: connection found open, connection
    made, [RTMP_ConnectStream] refused, [RTMP_Connect] refused, options
    refused, chunk dropped, sticky write error, write of zero bytes, chunk
    sent, no connection to send on. *)
Ltac walk_open H :=
  let Hflow := fresh "Hflow" in
  let Hsink := fresh "Hsink" in
  let Htrace := fresh "Htrace" in
  apply connected_shape in H as (Hflow & Hsink & Htrace).

Ltac walk_connect H s2 :=
  let s3 := fresh "s3" in
  let t3 := fresh "t3" in
  let res := fresh "res" in
  let Hopt := fresh "Hopt" in
  let Hs3 := fresh "Hs3" in
  let Hq3 := fresh "Hq3" in
  let Hc := fresh "Hc" in
  let Hcs := fresh "Hcs" in
  destruct (gst_rtmp_sink_option _ s2) as [[s3 res] t3] eqn:Hopt;
  apply gst_rtmp_sink_option_shape in Hopt as (Hs3 & Hq3);
  destruct res; cbn [negb] in H;
  [ destruct (connect_ok _) eqn:Hc; cbn [negb] in H;
    [ destruct (connect_stream_ok _) eqn:Hcs; cbn [negb] in H;
      [ walk_open H | injection H as <- ]
    | injection H as <- ]
  | injection H as <- ].

Ltac walk_first H :=
  let Hdue := fresh "Hdue" in
  let Hre := fresh "Hre" in
  let Hs2 := fresh "Hs2" in
  let Hq2 := fresh "Hq2" in
  let Hrtmp := fresh "Hrtmp" in
  let Hconn := fresh "Hconn" in
  let s2 := fresh "s2" in
  let t2 := fresh "t2" in
  unfold render_first in H; rewrite note_end_time_shape in H;
  match type of H with
  | context [retry_due ?x] => destruct (retry_due x) eqn:Hdue
  end;
  [ match type of H with
    | context [reinitialize ?e ?x] =>
        destruct (reinitialize e x) as [s2 t2] eqn:Hre
    end;
    apply reinitialize_shape in Hre as ((? & ? & ? & ? & ? & Hs2) & Hq2);
    destruct (rtmp s2) eqn:Hrtmp; [|discriminate H];
    destruct (is_connected _) eqn:Hconn; cbn [negb] in H;
    [ walk_open H | walk_connect H s2 ]
  | injection H as <- ].

Ltac walk_send H s1 :=
  let Hfault := fresh "Hfault" in
  let Hcs := fresh "Hcs" in
  let Hrtmp := fresh "Hrtmp" in
  let Hw0 := fresh "Hw0" in
  unfold render_send in H;
  destruct (have_write_error s1) eqn:Hfault;
  [ injection H as <-
  | destruct (connection_status s1 >? 0) eqn:Hcs;
    [ destruct (rtmp s1) eqn:Hrtmp; [|discriminate H];
      destruct (write_ret _ O =? 0) eqn:Hw0; injection H as <-
    | injection H as <- ] ].

Ltac walk H :=
  let s1 := fresh "s1" in
  let Hsave := fresh "Hsave" in
  let Hfirst := fresh "Hfirst" in
  unfold gst_rtmp_sink_render, bind in H;
  destruct (save_metadata _ _) as [s1|] eqn:Hsave; [|discriminate H];
  apply save_metadata_shape in Hsave;
  destruct (first s1) eqn:Hfirst;
  [ walk_first H | walk_send H s1 ].

(** Brings the result of a walk to setters over the entry state. *)
Ltac settle :=
  repeat match goal with
         | Hq : quiet _ |- _ => destruct Hq as (? & ? & ? & ? & ?)
         | r : Result |- _ => destruct r; cbn [sink flow trace] in *
         end;
  subst;
  repeat match goal with
         | s : GstRTMPSink |- _ => destruct s
         end;
  unfold connect_failed, init_failed, write_failed, after_send,
    in_error, retry_due, connect_message, bandwidth_due, replay_plan in *;
  norm_sink_all;
  cbn [sink flow trace].

(** Case analysis on the conditions left in the goal. *)
Ltac cases :=
  repeat (match goal with
          | |- context [match ?x with _ => _ end] =>
              lazymatch x with
              | context [match _ with _ => _ end] => fail
              | _ => destruct x eqn:?
              end
          end; cbn [sink flow trace negb andb orb]);
  norm_sink.

(** Simplifies what the trace observers see. *)
Ltac read_trace :=
  autorewrite with trace;
  repeat match goal with
         | Hq : messages_of ?t = [] |- context [messages_of ?t] => rewrite Hq
         | Hq : written ?t = [] |- context [written ?t] => rewrite Hq
         | Hq : write_results ?t = [] |- context [write_results ?t] => rewrite Hq
         | Hq : connect_refused ?t = false |- context [connect_refused ?t] => rewrite Hq
         | Hq : connection_open ?t = false |- context [connection_open ?t] => rewrite Hq
         end;
  cbn.

(** Turns the boolean tests in the context into arithmetic facts. *)
Ltac arith_facts :=
  repeat match goal with
         | E : (_ || _) = false |- _ => apply orb_false_iff in E; destruct E
         | E : (_ && _) = true |- _ => apply andb_true_iff in E; destruct E
         | E : (_ && _) = false |- _ => apply andb_false_iff in E; destruct E
         | E : (_ =? _) = true |- _ => apply Z.eqb_eq in E
         | E : (_ =? _) = false |- _ => apply Z.eqb_neq in E
         | E : (_ <=? _) = true |- _ => apply Z.leb_le in E
         | E : (_ <=? _) = false |- _ => apply Z.leb_gt in E
         | E : (_ >? _) = true |- _ => rewrite Z.gtb_ltb in E; apply Z.ltb_lt in E
         | E : (_ >? _) = false |- _ => rewrite Z.gtb_ltb in E; apply Z.ltb_ge in E
         | E : (_ >=? _) = true |- _ => rewrite Z.geb_leb in E; apply Z.leb_le in E
         | E : (_ >=? _) = false |- _ => rewrite Z.geb_leb in E; apply Z.leb_gt in E
         end.

(** ** Properties of chunk delivery *)

(** C10. On a single chunk delivery at most one of the messages
    [reconnected] and [bandwidth] is posted, never both: [reconnected] is
    posted only when a disconnection had been notified
    ([disconnection_notified] is 0 on entry), [bandwidth] only when none is
    pending ([disconnection_notified] is not 0 on entry). *)
Theorem reconnected_excludes_bandwidth env s buf r :
  gst_rtmp_sink_render env s buf = Done r ->
  (forall ts, In (reconnected ts) (messages_of (trace r)) ->
              disconnection_notified s = 0) /\
  (forall ts, In (bandwidth ts) (messages_of (trace r)) ->
              disconnection_notified s <> 0) /\
  ~ (exists a b, In (reconnected a) (messages_of (trace r)) /\
                 In (bandwidth b) (messages_of (trace r))) /\
  (List.length (messages_of (trace r)) <= 1)%nat.
Proof.
  intros H. walk H; settle; cases; read_trace; arith_facts;
    repeat split; try lia;
    try (intros ts [Hin|[]]; (discriminate Hin || (cbn; lia)));
    try (intros ts []);
    try (intros (a & b & Ha & Hb); cbn in Ha, Hb;
         intuition discriminate).
Qed.

Lemma reconnected_excludes_bandwidth_witness :
  exists r,
    gst_rtmp_sink_render server_up refused late_video_chunk = Done r /\
    disconnection_notified refused = 0 /\
    messages_of (trace r) = [reconnected (timestamp late_video_chunk)] /\
    (forall ts, In (bandwidth ts) (messages_of (trace r)) ->
                disconnection_notified refused <> 0).
Proof.
  eexists. split; [vm_compute; reflexivity|].
  split; [vm_compute; reflexivity|]. split; [vm_compute; reflexivity|].
  refine (proj1 (proj2 (reconnected_excludes_bandwidth server_up refused
                          late_video_chunk _ _)));
    vm_compute; reflexivity.
Defined.


(** C1. When a delivery makes a connect attempt that is refused
    ([RTMP_Connect] or [RTMP_ConnectStream] reports failure), it returns
    [GST_FLOW_ERROR] exactly when [reconnection_delay] is 0; when
    [reconnection_delay] is positive it returns [GST_FLOW_OK], nothing is
    written and the chunk is not kept as header. *)
Theorem connect_failure_fatal_iff_no_delay env s buf r :
  gst_rtmp_sink_render env s buf = Done r ->
  0 <= reconnection_delay s ->
  connect_refused (trace r) = true ->
  (flow r = GST_FLOW_ERROR <-> reconnection_delay s = 0) /\
  (0 < reconnection_delay s ->
   flow r = GST_FLOW_OK /\ written (trace r) = [] /\
   (header (sink r) = None \/ header (sink r) = header s)).
Proof.
  intros H. walk H; settle; cases; read_trace; arith_facts;
    intros Hdelay Hrefused; try discriminate Hrefused;
    (split;
     [ split; intros Hx; first [discriminate Hx | lia | reflexivity]
     | intros; try lia; repeat split; auto ]).
Qed.

Lemma connect_failure_fatal_iff_no_delay_witness :
  exists r,
    gst_rtmp_sink_render server_down started video_chunk = Done r /\
    (flow r = GST_FLOW_ERROR <-> reconnection_delay started = 0) /\
    (0 < reconnection_delay started ->
     flow r = GST_FLOW_OK /\ written (trace r) = [] /\
     (header (sink r) = None \/ header (sink r) = header started)).
Proof.
  eexists. split; [vm_compute; reflexivity|].
  apply (connect_failure_fatal_iff_no_delay server_down started video_chunk);
    [vm_compute; reflexivity | vm_compute; discriminate | vm_compute; reflexivity].
Defined.

(** In the send branch the chunk is written alone: whatever [header]
    holds, the bytes handed to [RTMP_Write] are those of the chunk, and
    [header] is left as it was. *)
Lemma send_branch_writes_chunk_alone env s buf r :
  gst_rtmp_sink_render env s buf = Done r ->
  first s = false ->
  (written (trace r) = [] \/ written (trace r) = [data buf]) /\
  header (sink r) = header s.
Proof.
  intros H. walk H; settle; cases; read_trace; intros Hf;
    try congruence; split; auto.
Qed.

(** C2 (the code departs from the claim).  The element is started, the
    server is up, and two chunks are delivered.  The first chunk completes
    the connection, is cached in [header] and is not written.  The second
    delivery writes the second chunk alone, not the cached header followed
    by the chunk, and [header] still holds the first chunk afterwards: the
    join of lines 473-474 is bound to a local variable just before the
    [return] of line 479. *)
Theorem cached_header_never_joined :
  exists r1 r2 s2,
    deliver_all started [(script_chunk, server_up); (video_chunk, server_up)]
    = Done (s2, [r1; r2]) /\
    flow r1 = GST_FLOW_OK /\ written (trace r1) = [] /\
    header (sink r1) = Some script_chunk /\
    flow r2 = GST_FLOW_OK /\ written (trace r2) = [data video_chunk] /\
    written (trace r2) <> [data script_chunk ++ data video_chunk] /\
    header s2 = Some script_chunk.
Proof.
  do 3 eexists. split; [vm_compute; reflexivity|].
  vm_compute. repeat split; discriminate.
Qed.

(** C3, as stated, fails: with all three slots filled and a server that
    fails every send, the reconnecting delivery still makes the three
    replay writes, in order, and returns [GST_FLOW_OK]. *)
Lemma replay_not_aborted_on_failed_write :
  ~ (forall env s buf r,
        gst_rtmp_sink_render env s buf = Done r ->
        connection_open (trace r) = true ->
        forall k z,
          nth_error (write_results (trace r)) k = Some z -> z <= 0 ->
          List.length (written (trace r)) = S k /\ flow r = GST_FLOW_ERROR).
Proof.
  intros C.
  eassert (E : gst_rtmp_sink_render server_up_send_fails send_failed
                 video_chunk = Done _) by (vm_compute; reflexivity).
  specialize (C _ _ _ _ E eq_refl 0%nat (-1) eq_refl ltac:(lia)).
  destruct C as [_ C]. discriminate C.
Qed.

(** Only the capture of lines 359-374 touches the metadata slots. *)
Lemma slots_after_delivery env s buf r :
  gst_rtmp_sink_render env s buf = Done r ->
  stream_meta_saved (sink r)
  = stream_meta_saved s || captures s (stream_meta_saved s) buf 18 /\
  stream_metadata (sink r)
  = (if captures s (stream_meta_saved s) buf 18 then Some buf
     else stream_metadata s) /\
  video_meta_saved (sink r)
  = video_meta_saved s || captures s (video_meta_saved s) buf 9 /\
  video_metadata (sink r)
  = (if captures s (video_meta_saved s) buf 9 then Some buf
     else video_metadata s) /\
  audio_meta_saved (sink r)
  = audio_meta_saved s || captures s (audio_meta_saved s) buf 8 /\
  audio_metadata (sink r)
  = (if captures s (audio_meta_saved s) buf 8 then Some buf
     else audio_metadata s).
Proof.
  intros H. walk H; settle;
    repeat match goal with
           | |- context [captures ?x ?b ?c ?d] =>
               generalize (captures x b c d); intro
           end;
    cases; repeat split; reflexivity.
Qed.

(** The slots after a delivery, read as a replay plan, are the slots held
    on entry with the delivered chunk in the slot that takes it. *)
Lemma replay_plan_after_delivery env s buf r :
  gst_rtmp_sink_render env s buf = Done r ->
  replay_plan (sink r) = replay_on_entry s buf.
Proof.
  intros H.
  destruct (slots_after_delivery _ _ _ _ H) as (A1 & A2 & A3 & A4 & A5 & A6).
  unfold replay_plan, replay_on_entry, kept_or_captured.
  rewrite A1, A2, A3, A4, A5, A6.
  destruct (captures s (stream_meta_saved s) buf 18),
    (captures s (video_meta_saved s) buf 9),
    (captures s (audio_meta_saved s) buf 8);
    rewrite ?orb_true_r, ?orb_false_r; reflexivity.
Qed.

(** A slot saved on entry is part of what is replayed. *)
Lemma saved_slots_replayed s buf b :
  In b (replay_plan s) -> In b (replay_on_entry s buf).
Proof.
  unfold replay_plan, replay_on_entry, kept_or_captured, captures, slot_bytes.
  destruct (stream_meta_saved s), (video_meta_saved s), (audio_meta_saved s);
    cbn [negb andb]; rewrite ?andb_false_r; cbn [andb];
    rewrite ?in_app_iff; cbn [In];
    repeat match goal with
           | |- context [if ?c then _ else _] => destruct c
           end;
    cbn [In]; tauto.
Qed.

(** What is replayed is the delivered chunk or a slot saved on entry. *)
Lemma replay_on_entry_sources s buf b :
  In b (replay_on_entry s buf) -> b = data buf \/ In b (replay_plan s).
Proof.
  unfold replay_plan, replay_on_entry, kept_or_captured.
  rewrite !in_app_iff.
  repeat match goal with
         | |- context [if ?c then _ else _] =>
             lazymatch c with
             | captures _ _ _ _ => destruct c
             end
         end;
    cbn [In]; intuition auto.
Qed.

(** The replay of lines 459-467 follows the slots the delivery leaves. *)
Lemma replay_follows_slots env s buf r :
  gst_rtmp_sink_render env s buf = Done r ->
  connection_open (trace r) = true ->
  written (trace r) = replay_plan (sink r) /\
  write_results (trace r)
  = map (write_ret env) (seq 0 (List.length (replay_plan (sink r)))) /\
  flow r = GST_FLOW_OK /\
  connection_status (sink r) = last (write_results (trace r)) 1.
Proof.
  intros H. walk H; settle; read_trace;
    first [ intros _; repeat split; reflexivity
          | cases; read_trace; intros Ho; discriminate Ho ].
Qed.

(** C3, amended.  On every delivery that finds or makes an open
    connection, the slots are replayed in the order stream metadata, video,
    audio, unsaved slots being skipped.  What is replayed is read on entry
    to the delivery: each slot saved on entry is sent with the bytes it
    holds, and a slot that is free on entry is sent only when it captures
    the delivered chunk on this delivery; the slots are left as replayed.
    Every replay write is made whatever the earlier ones returned, the
    delivery returns [GST_FLOW_OK], and [connection_status] is left at the
    value of the last replay write (1 when nothing is replayed). *)
Theorem replay_order env s buf r :
  gst_rtmp_sink_render env s buf = Done r ->
  connection_open (trace r) = true ->
  written (trace r) = replay_on_entry s buf /\
  (forall b, In b (replay_plan s) -> In b (written (trace r))) /\
  replay_plan (sink r) = replay_on_entry s buf /\
  write_results (trace r)
  = map (write_ret env) (seq 0 (List.length (replay_on_entry s buf))) /\
  flow r = GST_FLOW_OK /\
  connection_status (sink r) = last (write_results (trace r)) 1.
Proof.
  intros H Ho.
  destruct (replay_follows_slots _ _ _ _ H Ho) as (R1 & R2 & R3 & R4).
  pose proof (replay_plan_after_delivery _ _ _ _ H) as P.
  rewrite P in R1, R2.
  split; [exact R1|]. split.
  { intros b Hb. rewrite R1. apply saved_slots_replayed. exact Hb. }
  split; [exact P|]. split; [exact R2|]. split; [exact R3 | exact R4].
Qed.

Lemma replay_order_witness :
  exists r,
    gst_rtmp_sink_render server_up send_failed video_chunk = Done r /\
    replay_plan send_failed
    = [data script_chunk; data video_chunk; data audio_chunk] /\
    written (trace r)
    = [data script_chunk; data video_chunk; data audio_chunk] /\
    write_results (trace r) = [16; 16; 16] /\
    flow r = GST_FLOW_OK /\
    connection_status (sink r) = 16.
Proof.
  eassert (E : gst_rtmp_sink_render server_up send_failed video_chunk
               = Done _) by (vm_compute; reflexivity).
  match type of E with
  | _ = Done ?r =>
      exists r; split; [exact E|];
      destruct (replay_order server_up send_failed video_chunk r E)
        as (W1 & _ & _ & W4 & W5 & W6); [vm_compute; reflexivity|]
  end.
  split; [vm_compute; reflexivity|].
  split; [rewrite W1; vm_compute; reflexivity|].
  split; [rewrite W4; vm_compute; reflexivity|].
  split; [exact W5|].
  rewrite W6, W4. vm_compute. reflexivity.
Defined.

(** One delivery with the write-error flag set and [first] cleared. *)
Lemma faulted_delivery env s buf r :
  gst_rtmp_sink_render env s buf = Done r ->
  have_write_error s = true ->
  first s = false ->
  flow r = GST_FLOW_ERROR /\ written (trace r) = [] /\
  have_write_error (sink r) = true /\ first (sink r) = false.
Proof.
  intros H. walk H; settle; cases; read_trace; intros Hw Hf;
    try congruence; repeat split; assumption.
Qed.

(** A delivery in the send branch fails only on the sticky flag or on a
    write of zero bytes. *)
Lemma send_branch_flow env s buf r :
  gst_rtmp_sink_render env s buf = Done r ->
  first s = false ->
  have_write_error s = false ->
  write_ret env O <> 0 ->
  flow r = GST_FLOW_OK.
Proof.
  intros H. walk H; settle; cases; read_trace; arith_facts; intros Hf Hw Hz;
    try congruence; reflexivity.
Qed.

(** No delivery raises the write-error flag: [init_failed] is only reached
    with [rtmp_uri] already cleared, and [write_failed] only with the flag
    already set. *)
Lemma delivery_never_raises_write_error env s buf r :
  gst_rtmp_sink_render env s buf = Done r ->
  have_write_error s = false ->
  have_write_error (sink r) = false.
Proof.
  intros H. walk H; settle; subst; read_trace; cases;
    intros Hw; subst; cbn; try congruence; reflexivity.
Qed.


(** C5, as stated, fails: after a refused connection ([connection_status]
    is -1) the next video chunk is captured into its slot, although it is
    then dropped. *)
Lemma metadata_captured_in_error_state :
  ~ (forall env s buf r,
        gst_rtmp_sink_render env s buf = Done r ->
        video_meta_saved s = false ->
        video_meta_saved (sink r) = true ->
        0 < connection_status s).
Proof.
  intros C.
  eassert (E : gst_rtmp_sink_render server_down refused video_chunk = Done _)
    by (vm_compute; reflexivity).
  specialize (C _ _ _ _ E eq_refl eq_refl).
  vm_compute in C. discriminate C.
Qed.

(** C5, amended.  A delivery stores the chunk in a metadata slot exactly
    when [connection_status] is not 0 on entry (connected, or in error),
    the slot is not yet saved and the chunk carries the slot's tag (18
    stream metadata, 9 video, 8 audio); with [connection_status] 0 nothing
    is captured.  Nothing else in the delivery touches the slots. *)
Theorem metadata_capture env s buf r :
  gst_rtmp_sink_render env s buf = Done r ->
  stream_meta_saved (sink r)
  = stream_meta_saved s || captures s (stream_meta_saved s) buf 18 /\
  stream_metadata (sink r)
  = (if captures s (stream_meta_saved s) buf 18 then Some buf
     else stream_metadata s) /\
  video_meta_saved (sink r)
  = video_meta_saved s || captures s (video_meta_saved s) buf 9 /\
  video_metadata (sink r)
  = (if captures s (video_meta_saved s) buf 9 then Some buf
     else video_metadata s) /\
  audio_meta_saved (sink r)
  = audio_meta_saved s || captures s (audio_meta_saved s) buf 8 /\
  audio_metadata (sink r)
  = (if captures s (audio_meta_saved s) buf 8 then Some buf
     else audio_metadata s).
Proof.
  intros H. walk H; settle;
    repeat match goal with
           | |- context [captures ?x ?b ?c ?d] =>
               generalize (captures x b c d); intro
           end;
    cases; repeat split; reflexivity.
Qed.

Lemma metadata_capture_witness :
  exists r,
    gst_rtmp_sink_render server_down refused video_chunk = Done r /\
    captures refused (video_meta_saved refused) video_chunk 9 = true /\
    video_meta_saved (sink r) = true /\
    video_metadata (sink r) = Some video_chunk /\
    connection_status refused = -1.
Proof.
  eexists. split; [vm_compute; reflexivity|].
  split; [vm_compute; reflexivity|].
  split; [|split; [|vm_compute; reflexivity]].
  - refine (eq_trans
              (proj1 (proj2 (proj2
                 (metadata_capture server_down refused video_chunk _ _)))) _);
      vm_compute; reflexivity.
  - refine (eq_trans
              (proj1 (proj2 (proj2 (proj2
                 (metadata_capture server_down refused video_chunk _ _))))) _);
      vm_compute; reflexivity.
Defined.

(** C6, as stated, fails: a successful write does not reset
    [send_error_count].  After one send error and the reconnection that
    follows, the counter is 1 and the next chunk is written successfully;
    the counter is still 1. *)
Lemma send_error_count_survives_successful_write :
  ~ (forall env s buf r,
        gst_rtmp_sink_render env s buf = Done r ->
        first s = false ->
        forall n, write_results (trace r) = [n] -> 0 < n ->
                  send_error_count (sink r) = 0).
Proof.
  intros C.
  eassert (E : gst_rtmp_sink_render server_up resumed audio_chunk = Done _)
    by (vm_compute; reflexivity).
  specialize (C _ _ _ _ E eq_refl 16 eq_refl ltac:(lia)).
  vm_compute in C. discriminate C.
Qed.

(** When the [bandwidth] message is posted. *)
Lemma bandwidth_posted_iff env s buf r :
  gst_rtmp_sink_render env s buf = Done r ->
  forall ts,
    In (bandwidth ts) (messages_of (trace r)) <->
    ts = timestamp buf /\ connection_open (trace r) = true /\
    disconnection_notified s <> 0 /\ sent_status s = -1 /\
    2 <= send_error_count s.
Proof.
  intros H. walk H; settle; read_trace; cases; read_trace; arith_facts;
    intros ts;
    (split;
     [ intros Hin;
       first [ contradiction
             | destruct Hin as [Hin|[]];
               first [discriminate Hin | injection Hin as <-];
               repeat split; first [reflexivity | lia] ]
     | intros (-> & Hopen & ? & ? & ?);
       first [discriminate Hopen | lia | left; reflexivity] ]).
Qed.

(** What a delivery does to [send_error_count]. *)
Lemma send_error_count_after env s buf r :
  gst_rtmp_sink_render env s buf = Done r ->
  (forall ts, In (bandwidth ts) (messages_of (trace r)) ->
              send_error_count (sink r) = 0) /\
  (connect_refused (trace r) = true -> send_error_count (sink r) = 0) /\
  (forall n, first s = false -> write_results (trace r) = [n] -> 0 < n ->
             send_error_count (sink r) = send_error_count s).
Proof.
  intros H. walk H; settle; read_trace; cases; read_trace; arith_facts;
    (split;
     [ intros ts Hin;
       first [ contradiction
             | destruct Hin as [Hin|[]];
               first [discriminate Hin | reflexivity] ]
     | split;
       [ intros Hx; first [discriminate Hx | reflexivity]
       | intros n Hf Hwr Hn;
         first [ congruence | discriminate Hwr
               | injection Hwr as <-; lia | reflexivity ] ] ]).
Qed.

(** C6, amended.  The [bandwidth] message is posted exactly on those
    deliveries that find or make an open connection while no [reconnected]
    message is due ([disconnection_notified] is not 0), the last send
    failed ([sent_status] is -1) and [send_error_count] is at least 2; it
    carries the chunk's timestamp.  [send_error_count] is 0 after the
    message is posted and after a refused connect attempt; a successful
    write leaves it as it was. *)
Theorem bandwidth_message_condition env s buf r :
  gst_rtmp_sink_render env s buf = Done r ->
  (forall ts,
      In (bandwidth ts) (messages_of (trace r)) <->
      ts = timestamp buf /\ connection_open (trace r) = true /\
      disconnection_notified s <> 0 /\ sent_status s = -1 /\
      2 <= send_error_count s) /\
  (forall ts, In (bandwidth ts) (messages_of (trace r)) ->
              send_error_count (sink r) = 0) /\
  (connect_refused (trace r) = true -> send_error_count (sink r) = 0) /\
  (forall n, first s = false -> write_results (trace r) = [n] -> 0 < n ->
             send_error_count (sink r) = send_error_count s).
Proof.
  intros H. split.
  - exact (bandwidth_posted_iff env s buf r H).
  - exact (send_error_count_after env s buf r H).
Qed.

Lemma bandwidth_message_condition_witness :
  exists r,
    gst_rtmp_sink_render server_up resumed audio_chunk = Done r /\
    write_results (trace r) = [16] /\
    send_error_count (sink r) = send_error_count resumed /\
    send_error_count resumed = 1.
Proof.
  eexists. split; [vm_compute; reflexivity|].
  split; [vm_compute; reflexivity|].
  split; [|vm_compute; reflexivity].
  refine (proj2 (proj2 (proj2
            (bandwidth_message_condition server_up resumed audio_chunk _ _)))
            16 _ _ _);
    [ vm_compute; reflexivity | vm_compute; reflexivity
    | vm_compute; reflexivity | vm_compute; reflexivity ].
Defined.

(** The first refused connect attempt of an episode. *)
Lemma episode_opening env s buf r :
  gst_rtmp_sink_render env s buf = Done r ->
  0 < reconnection_delay s ->
  disconnection_notified s = 1 ->
  connect_refused (trace r) = true ->
  messages_of (trace r) = [disconnected (timestamp buf)] /\
  disconnection_notified (sink r) = 0 /\ first (sink r) = true.
Proof.
  intros H. walk H; settle; subst; read_trace; cases; read_trace;
    arith_facts; intros Hd Hn Hx;
    first [discriminate Hx | lia | repeat split; reflexivity].
Qed.

(** A delivery inside an episode that does not reach an open connection. *)
Lemma episode_step env s buf r :
  gst_rtmp_sink_render env s buf = Done r ->
  disconnection_notified s = 0 ->
  first s = true ->
  connection_open (trace r) = false ->
  messages_of (trace r) = [] /\
  disconnection_notified (sink r) = 0 /\ first (sink r) = true.
Proof.
  intros H. walk H; settle; subst; read_trace; cases; read_trace;
    arith_facts; intros Hn Hf Hx;
    first [discriminate Hx | discriminate Hf | lia
          | repeat split; first [reflexivity | assumption] ].
Qed.

(** The delivery that ends an episode. *)
Lemma episode_closing env s buf r :
  gst_rtmp_sink_render env s buf = Done r ->
  disconnection_notified s = 0 ->
  connection_open (trace r) = true ->
  (exists ts, messages_of (trace r) = [reconnected ts]) /\
  disconnection_notified (sink r) = 1.
Proof.
  intros H. walk H; settle; subst; read_trace; cases; read_trace;
    arith_facts; intros Hn Hx;
    first [discriminate Hx | lia
          | split; [eexists; reflexivity | reflexivity] ].
Qed.

(** Deliveries inside an episode, none of which reaches an open
    connection, post nothing. *)
Lemma episode_run s l s' rs :
  deliver_all s l = Done (s', rs) ->
  disconnection_notified s = 0 ->
  first s = true ->
  Forall (fun r => connection_open (trace r) = false) rs ->
  Forall (fun r => messages_of (trace r) = []) rs /\
  disconnection_notified s' = 0 /\ first s' = true.
Proof.
  revert s s' rs.
  induction l as [|[b e] l IH]; intros s s' rs Hrun Hn Hf Hclosed;
    cbn in Hrun.
  - injection Hrun as <- <-. repeat split; auto.
  - unfold bind in Hrun.
    destruct (gst_rtmp_sink_render e s b) as [r1|] eqn:E1; [|discriminate].
    destruct (deliver_all (sink r1) l) as [[s2 rs2]|] eqn:E2; [|discriminate].
    injection Hrun as <- <-. cbn [fst snd] in *.
    inversion Hclosed as [|? ? Hc1 Hc2]; subst.
    destruct (episode_step _ _ _ _ E1 Hn Hf Hc1) as (F1 & F2 & F3).
    destruct (IH _ _ _ E2 F2 F3 Hc2) as (G1 & G2 & G3).
    repeat split; auto.
Qed.

(** C7.  A disconnect episode exists when [reconnection_delay] is
    positive (with a delay of 0 a refused connect attempt is fatal).  It
    opens with a refused connect attempt made while no disconnection is
    pending ([disconnection_notified] is 1, as after [gst_rtmp_sink_init]
    and after every delivery that reaches an open connection) and goes on
    through any run of further deliveries none of which reaches an open
    connection.  The refused attempt posts [disconnected] with the chunk's
    timestamp, the further deliveries (dropped chunks and refused attempts
    alike) post nothing, so the episode posts [disconnected] exactly once;
    the delivery that then reaches an open connection posts [reconnected]
    and sets [disconnection_notified] back to 1. *)
Theorem disconnected_once_per_episode env s buf r0 l s' rs :
  gst_rtmp_sink_render env s buf = Done r0 ->
  0 < reconnection_delay s ->
  disconnection_notified s = 1 ->
  connect_refused (trace r0) = true ->
  deliver_all (sink r0) l = Done (s', rs) ->
  Forall (fun r => connection_open (trace r) = false) rs ->
  messages_of (trace r0) = [disconnected (timestamp buf)] /\
  Forall (fun r => messages_of (trace r) = []) rs /\
  flat_map (fun r => messages_of (trace r)) (r0 :: rs)
  = [disconnected (timestamp buf)] /\
  disconnection_notified s' = 0 /\
  (forall env' buf' r',
      gst_rtmp_sink_render env' s' buf' = Done r' ->
      connection_open (trace r') = true ->
      (exists ts, messages_of (trace r') = [reconnected ts]) /\
      disconnection_notified (sink r') = 1).
Proof.
  intros H Hd Hn Hx Hrun Hclosed.
  destruct (episode_opening _ _ _ _ H Hd Hn Hx) as (O1 & O2 & O3).
  destruct (episode_run _ _ _ _ Hrun O2 O3 Hclosed) as (R1 & R2 & R3).
  split; [exact O1|]. split; [exact R1|]. split; [|split; [exact R2|]].
  - cbn [flat_map]. rewrite O1.
    replace (flat_map (fun r => messages_of (trace r)) rs) with (@nil Message);
      [reflexivity|].
    clear -R1. induction R1 as [|r rs' Hr _ IH]; cbn; [reflexivity|].
    rewrite Hr. exact IH.
  - intros env' buf' r' H' Hopen.
    exact (episode_closing _ _ _ _ H' R2 Hopen).
Qed.

Lemma disconnected_once_per_episode_witness :
  exists r0 s' rs,
    gst_rtmp_sink_render server_down started script_chunk = Done r0 /\
    deliver_all (sink r0)
      [(video_chunk, server_down); (late_video_chunk, server_down)]
    = Done (s', rs) /\
    List.length rs = 2%nat /\
    messages_of (trace r0) = [disconnected (timestamp script_chunk)] /\
    Forall (fun r => messages_of (trace r) = []) rs /\
    flat_map (fun r => messages_of (trace r)) (r0 :: rs)
    = [disconnected (timestamp script_chunk)] /\
    disconnection_notified s' = 0 /\
    (forall env' buf' r',
        gst_rtmp_sink_render env' s' buf' = Done r' ->
        connection_open (trace r') = true ->
        (exists ts, messages_of (trace r') = [reconnected ts]) /\
        disconnection_notified (sink r') = 1).
Proof.
  do 3 eexists. split; [vm_compute; reflexivity|].
  split; [vm_compute; reflexivity|]. split; [reflexivity|].
  apply (disconnected_once_per_episode server_down started script_chunk _
           [(video_chunk, server_down); (late_video_chunk, server_down)]);
    [ vm_compute; reflexivity | vm_compute; reflexivity
    | vm_compute; reflexivity | vm_compute; reflexivity
    | vm_compute; reflexivity
    | repeat constructor ].
Defined.

(** C8, as stated, fails: the saved metadata survives a stop/start
    cycle. *)
Lemma metadata_survives_stop_start :
  ~ (forall env s,
        let s' := fst (fst (gst_rtmp_sink_start env
                              (fst (gst_rtmp_sink_stop s)))) in
        stream_meta_saved s' = false /\ video_meta_saved s' = false /\
        audio_meta_saved s' = false /\ header s' = None).
Proof.
  intros C. specialize (C server_up streaming).
  vm_compute in C. destruct C as [C _]. discriminate C.
Qed.

(** C8, amended.  [gst_rtmp_sink_stop] clears [header], and [header] is
    still clear after the [gst_rtmp_sink_start] that follows; the internal
    stop and start of a reconnection after an error does the same.  The
    three metadata slots, flags and payloads, are left as they were by
    stop, by start and by the internal reconnection cycle; they are empty
    in a new element. *)
Theorem stop_start_clears_header_keeps_metadata env s :
  let s1 := fst (gst_rtmp_sink_stop s) in
  let s2 := fst (fst (gst_rtmp_sink_start env s1)) in
  let s3 := fst (reinitialize env s) in
  header s1 = None /\ header s2 = None /\
  header s3 = (if in_error s then None else header s) /\
  (stream_meta_saved s2, video_meta_saved s2, audio_meta_saved s2)
  = (stream_meta_saved s, video_meta_saved s, audio_meta_saved s) /\
  (stream_metadata s2, video_metadata s2, audio_metadata s2)
  = (stream_metadata s, video_metadata s, audio_metadata s) /\
  (stream_meta_saved s3, video_meta_saved s3, audio_meta_saved s3)
  = (stream_meta_saved s, video_meta_saved s, audio_meta_saved s) /\
  (stream_metadata s3, video_metadata s3, audio_metadata s3)
  = (stream_metadata s, video_metadata s, audio_metadata s) /\
  (stream_meta_saved gst_rtmp_sink_init, video_meta_saved gst_rtmp_sink_init,
   audio_meta_saved gst_rtmp_sink_init) = (false, false, false).
Proof.
  cbv zeta.
  destruct (gst_rtmp_sink_stop s) as [a ta] eqn:Ea. cbn [fst].
  destruct (gst_rtmp_sink_start env a) as [[b ok] tb] eqn:Eb. cbn [fst].
  destruct (reinitialize env s) as [c tc] eqn:Ec. cbn [fst].
  apply gst_rtmp_sink_stop_shape in Ea as (-> & _).
  apply gst_rtmp_sink_start_shape in Eb as ((r & u & ->) & _).
  apply reinitialize_shape in Ec as ((r' & u' & b' & ok' & bt' & ->) & _).
  repeat split.
Qed.

(** C9, as stated, fails: the connect attempt of the first delivery is
    due because [try_now_connection] is set; it succeeds, and the flag is
    still set afterwards. *)
Lemma try_now_connection_kept_on_success :
  ~ (forall env s buf r,
        gst_rtmp_sink_render env s buf = Done r ->
        try_now_connection s = true ->
        connection_open (trace r) = true \/ connect_refused (trace r) = true ->
        try_now_connection (sink r) = false).
Proof.
  intros C.
  eassert (E : gst_rtmp_sink_render server_up started script_chunk = Done _)
    by (vm_compute; reflexivity).
  specialize (C _ _ _ _ E eq_refl (or_introl eq_refl)).
  discriminate C.
Qed.

(** C9, amended.  On a delivery entered with [try_now_connection] set, a
    refused connect attempt leaves the flag cleared; an attempt that
    reaches an open connection leaves the flag set. *)
Theorem try_now_connection_cleared_on_refusal env s buf r :
  gst_rtmp_sink_render env s buf = Done r ->
  try_now_connection s = true ->
  (connect_refused (trace r) = true -> try_now_connection (sink r) = false) /\
  (connection_open (trace r) = true -> try_now_connection (sink r) = true).
Proof.
  intros H. walk H; settle; subst; read_trace; cases; read_trace;
    intros Ht;
    (split; intros Hx; first [discriminate Hx | reflexivity | assumption]).
Qed.

Lemma try_now_connection_cleared_on_refusal_witness :
  exists r,
    gst_rtmp_sink_render server_down started video_chunk = Done r /\
    try_now_connection started = true /\
    connect_refused (trace r) = true /\
    try_now_connection (sink r) = false.
Proof.
  eexists. split; [vm_compute; reflexivity|].
  split; [vm_compute; reflexivity|]. split; [vm_compute; reflexivity|].
  refine (proj1 (try_now_connection_cleared_on_refusal server_down started
                   video_chunk _ _ _) _);
    vm_compute; reflexivity.
Defined.

(** ** Further proof support *)

Lemma option_refused_app t1 t2 :
  option_refused (t1 ++ t2) = option_refused t1 || option_refused t2.
Proof. apply existsb_app. Qed.

Lemma connect_attempted_app t1 t2 :
  connect_attempted (t1 ++ t2) = connect_attempted t1 || connect_attempted t2.
Proof. apply existsb_app. Qed.

Lemma connection_probed_app t1 t2 :
  connection_probed (t1 ++ t2) = connection_probed t1 || connection_probed t2.
Proof. apply existsb_app. Qed.

Lemma urls_set_up_app t1 t2 :
  urls_set_up (t1 ++ t2) = urls_set_up t1 ++ urls_set_up t2.
Proof. apply flat_map_app. Qed.

Lemma context_after_app t1 t2 live :
  context_after live (t1 ++ t2)
  = match context_after live t1 with
    | Some live' => context_after live' t2
    | None => None
    end.
Proof.
  revert live. induction t1 as [|o t1 IH]; intros live; cbn; [reflexivity|].
  destruct o, live; try reflexivity; apply IH.
Qed.

Lemma writes_from_quiet env l k :
  option_refused (writes_from env k l) = false /\
  connect_attempted (writes_from env k l) = false /\
  connection_probed (writes_from env k l) = false /\
  urls_set_up (writes_from env k l) = [] /\
  context_after true (writes_from env k l) = Some true.
Proof.
  revert k. induction l as [|b l IH]; intros k; cbn; [repeat split|].
  apply IH.
Qed.

Lemma posted_quiet l live :
  option_refused (map gst_element_post_message l) = false /\
  connect_attempted (map gst_element_post_message l) = false /\
  connection_probed (map gst_element_post_message l) = false /\
  urls_set_up (map gst_element_post_message l) = [] /\
  context_after live (map gst_element_post_message l) = Some live.
Proof.
  induction l as [|m l IH]; cbn; [repeat split|]. apply IH.
Qed.

(** What the rebuilding of the context does, call by call. *)
Lemma reinitialize_exact env s s' t :
  reinitialize env s = (s', t) ->
  is_backup s' = (if in_error s then switched_is_backup s else is_backup s) /\
  begin_time_disc s'
  = (if in_error s then end_time_disc s else begin_time_disc s) /\
  context_after (has_context s) t = Some (has_context s') /\
  option_refused t = false /\ connect_attempted t = false /\
  connection_probed t = false /\
  (in_error s = false -> t = []) /\
  (in_error s = true -> has_context s' = true ->
   exists u, reconnect_uri s = Some u /\
             alloc_ok env = true /\ setup_url_ok env u = true /\
             rtmp_uri s' = Some u /\
             t = (if has_context s then [RTMP_Close; RTMP_Free] else [])
                 ++ [RTMP_Alloc true; RTMP_Init; RTMP_SetupURL u true;
                     RTMP_EnableWrite]) /\
  (in_error s = true -> has_context s' = false ->
   forall u, reconnect_uri s = Some u ->
             alloc_ok env && setup_url_ok env u = false).
Proof.
  unfold reinitialize, gst_rtmp_sink_stop, gst_rtmp_sink_start, start_error,
    switched_is_backup, reconnect_uri, has_context.
  intros H. destruct s; cbn in H |- *.
  destruct (in_error _) eqn:Herr; cbn in H |- *.
  - destruct rtmp0, backup_uri0, is_backup0, uri0;
      cbn in H |- *;
      try destruct (alloc_ok env) eqn:Ha; cbn in H |- *;
      try match type of H with
          | context [setup_url_ok env ?u] =>
              destruct (setup_url_ok env u) eqn:Hu; cbn in H |- *
          end;
      injection H as <- <-; cbn;
      repeat split; try reflexivity; try discriminate;
      try (intros _ _; eexists; repeat split; eassumption);
      try (intros _ _ u' Hu'; injection Hu' as <-;
           rewrite ?Ha, ?Hu; reflexivity);
      try (intros _ _ u' Hu'; discriminate Hu').
  - injection H as <- <-. cbn. repeat split; try reflexivity;
      try discriminate.
Qed.

(** What the setting of the options does, call by call. *)
Lemma gst_rtmp_sink_option_exact env s s' ok t :
  gst_rtmp_sink_option env s = (s', ok, t) ->
  has_context s = true ->
  ok = set_opt_ok env "flashver" && set_opt_ok env "timeout" /\
  option_refused t = negb ok /\ connect_attempted t = false /\
  connection_probed t = false /\ urls_set_up t = [] /\
  context_after true t = Some ok /\ has_context s' = ok.
Proof.
  unfold gst_rtmp_sink_option, option_error, has_context.
  intros H Hc. destruct (rtmp s) eqn:Hr; [|discriminate Hc].
  destruct (set_opt_ok env "flashver") eqn:E1; cbn in H;
    [destruct (set_opt_ok env "timeout") eqn:E2; cbn in H|];
    rewrite ?Hr in H; injection H as <- <- <-; cbn;
    rewrite ?Hr; repeat split.
Qed.

Lemma writes_from_option_refused env l k :
  option_refused (writes_from env k l) = false.
Proof. apply writes_from_quiet. Qed.

Lemma writes_from_connect_attempted env l k :
  connect_attempted (writes_from env k l) = false.
Proof. apply writes_from_quiet. Qed.

Lemma writes_from_connection_probed env l k :
  connection_probed (writes_from env k l) = false.
Proof. apply writes_from_quiet. Qed.

Lemma writes_from_urls env l k : urls_set_up (writes_from env k l) = [].
Proof. apply writes_from_quiet. Qed.

Lemma writes_from_context env l k :
  context_after true (writes_from env k l) = Some true.
Proof. apply writes_from_quiet. Qed.

Lemma posted_option_refused l :
  option_refused (map gst_element_post_message l) = false.
Proof. apply (posted_quiet l true). Qed.

Lemma posted_connect_attempted l :
  connect_attempted (map gst_element_post_message l) = false.
Proof. apply (posted_quiet l true). Qed.

Lemma posted_connection_probed l :
  connection_probed (map gst_element_post_message l) = false.
Proof. apply (posted_quiet l true). Qed.

Lemma posted_urls l : urls_set_up (map gst_element_post_message l) = [].
Proof. apply (posted_quiet l true). Qed.

Lemma posted_context l live :
  context_after live (map gst_element_post_message l) = Some live.
Proof. apply posted_quiet. Qed.

Create Rewrite HintDb calls.
#[local] Hint Rewrite option_refused_app connect_attempted_app
  connection_probed_app urls_set_up_app context_after_app
  writes_from_option_refused writes_from_connect_attempted
  writes_from_connection_probed writes_from_urls writes_from_context
  posted_option_refused posted_connect_attempted posted_connection_probed
  posted_urls posted_context app_nil_r orb_false_r : calls.

(** As [walk], keeping what the rebuilding of the context and the setting
    of the options did call by call. *)
Ltac walk_connect_exact H s2 Hctx :=
  let s3 := fresh "s3" in
  let t3 := fresh "t3" in
  let res := fresh "res" in
  let Hopt := fresh "Hopt" in
  let Hoptx := fresh "Hoptx" in
  let Hs3 := fresh "Hs3" in
  let Hq3 := fresh "Hq3" in
  let Hc := fresh "Hc" in
  let Hcs := fresh "Hcs" in
  destruct (gst_rtmp_sink_option _ s2) as [[s3 res] t3] eqn:Hopt;
  pose proof (gst_rtmp_sink_option_exact _ _ _ _ _ Hopt Hctx) as Hoptx;
  destruct Hoptx as (? & ? & ? & ? & ? & ? & ?);
  apply gst_rtmp_sink_option_shape in Hopt as (Hs3 & Hq3);
  destruct res; cbn [negb] in H;
  [ destruct (connect_ok _) eqn:Hc; cbn [negb] in H;
    [ destruct (connect_stream_ok _) eqn:Hcs; cbn [negb] in H;
      [ walk_open H | injection H as <- ]
    | injection H as <- ]
  | injection H as <- ].

Ltac walk_first_exact H :=
  let Hdue := fresh "Hdue" in
  let Hre := fresh "Hre" in
  let Hrex := fresh "Hrex" in
  let Hs2 := fresh "Hs2" in
  let Hq2 := fresh "Hq2" in
  let Hrtmp := fresh "Hrtmp" in
  let Hctx := fresh "Hctx" in
  let Hconn := fresh "Hconn" in
  let s2 := fresh "s2" in
  let t2 := fresh "t2" in
  unfold render_first in H; rewrite note_end_time_shape in H;
  match type of H with
  | context [retry_due ?x] => destruct (retry_due x) eqn:Hdue
  end;
  [ match type of H with
    | context [reinitialize ?e ?x] =>
        destruct (reinitialize e x) as [s2 t2] eqn:Hre
    end;
    pose proof (reinitialize_exact _ _ _ _ Hre) as Hrex;
    destruct Hrex as (? & ? & ? & ? & ? & ? & ? & ? & ?);
    apply reinitialize_shape in Hre as ((? & ? & ? & ? & ? & Hs2) & Hq2);
    destruct (rtmp s2) eqn:Hrtmp; [|discriminate H];
    assert (Hctx : has_context s2 = true)
      by (unfold has_context; rewrite Hrtmp; reflexivity);
    destruct (is_connected _) eqn:Hconn; cbn [negb] in H;
    [ walk_open H | walk_connect_exact H s2 Hctx ]
  | injection H as <- ].

Ltac walk_exact H :=
  let s1 := fresh "s1" in
  let Hsave := fresh "Hsave" in
  let Hfirst := fresh "Hfirst" in
  unfold gst_rtmp_sink_render, bind in H;
  destruct (save_metadata _ _) as [s1|] eqn:Hsave; [|discriminate H];
  apply save_metadata_shape in Hsave;
  destruct (first s1) eqn:Hfirst;
  [ walk_first_exact H | walk_send H s1 ].

(** As [settle], for the notions used with [walk_exact]. *)
Ltac settle_exact :=
  settle;
  repeat match goal with
         | _ : context [captures ?a ?b ?c ?d] |- _ =>
             let cap := fresh "cap" in
             set (cap := captures a b c d) in *; clearbody cap
         | |- context [captures ?a ?b ?c ?d] =>
             let cap := fresh "cap" in
             set (cap := captures a b c d) in *; clearbody cap
         end;
  unfold reconnect_uri, active_uri, switched_is_backup, has_context in *;
  norm_sink_all;
  cbn [negb andb orb] in *.

(** As [read_trace], for the observers of single calls. *)
Ltac read_calls :=
  autorewrite with calls; cbn;
  repeat (match goal with
          | Hq : option_refused ?t = _ |- context [option_refused ?t] => rewrite Hq
          | Hq : connect_attempted ?t = _ |- context [connect_attempted ?t] => rewrite Hq
          | Hq : connection_probed ?t = _ |- context [connection_probed ?t] => rewrite Hq
          | Hq : urls_set_up ?t = _ |- context [urls_set_up ?t] => rewrite Hq
          | Hq : context_after ?l ?t = _ |- context [context_after ?l ?t] => rewrite Hq
          end; autorewrite with calls; cbn).

(** ** Further properties of chunk delivery *)

(** X1. In every completed delivery the calls into librtmp respect the
    life of the context: every call that takes the context is made while
    one is allocated, [RTMP_Free] is never called twice on the same
    context, [RTMP_Alloc] is only called when none is held, and the [rtmp]
    field is non-[NULL] after the delivery exactly when the calls leave a
    context allocated. *)
Theorem context_discipline env s buf r :
  gst_rtmp_sink_render env s buf = Done r ->
  context_after (has_context s) (trace r) = Some (has_context (sink r)).
Proof.
  intros H. walk_exact H; settle_exact; subst; read_calls; cases; read_calls;
    try reflexivity; try congruence.
Qed.

Lemma context_discipline_witness :
  exists r,
    gst_rtmp_sink_render server_down send_failed video_chunk = Done r /\
    context_after (has_context send_failed) (trace r)
    = Some (has_context (sink r)) /\
    has_context send_failed = true /\ has_context (sink r) = false.
Proof.
  eexists. split; [vm_compute; reflexivity|].
  split; [|split; vm_compute; reflexivity].
  apply (context_discipline server_down send_failed video_chunk).
  vm_compute; reflexivity.
Defined.

(** X2. Nothing raises the sticky write-error flag: a run of deliveries
    entered with [have_write_error] clear leaves it clear after every
    delivery, and neither [gst_rtmp_sink_stop], [gst_rtmp_sink_start] nor
    an event sets it. *)
Theorem write_error_flag_never_raised env s l s' rs ev :
  deliver_all s l = Done (s', rs) ->
  have_write_error s = false ->
  Forall (fun r => have_write_error (sink r) = false) rs /\
  have_write_error s' = false /\
  have_write_error (fst (gst_rtmp_sink_stop s)) = false /\
  have_write_error (fst (fst (gst_rtmp_sink_start env s))) = false /\
  have_write_error (gst_rtmp_sink_event ev s) = false.
Proof.
  intros Hrun Hw. split; [|split].
  - revert s s' rs Hrun Hw.
    induction l as [|[b e] l IH]; intros s s' rs Hrun Hw; cbn in Hrun.
    + injection Hrun as <- <-. constructor.
    + unfold bind in Hrun.
      destruct (gst_rtmp_sink_render e s b) as [r1|] eqn:E1; [|discriminate].
      destruct (deliver_all (sink r1) l) as [[s2 rs2]|] eqn:E2; [|discriminate].
      injection Hrun as <- <-. cbn [fst snd].
      pose proof (delivery_never_raises_write_error _ _ _ _ E1 Hw) as F.
      constructor; [exact F|]. exact (IH _ _ _ E2 F).
  - revert s s' rs Hrun Hw.
    induction l as [|[b e] l IH]; intros s s' rs Hrun Hw; cbn in Hrun.
    + injection Hrun as <- <-. exact Hw.
    + unfold bind in Hrun.
      destruct (gst_rtmp_sink_render e s b) as [r1|] eqn:E1; [|discriminate].
      destruct (deliver_all (sink r1) l) as [[s2 rs2]|] eqn:E2; [|discriminate].
      injection Hrun as <- <-. cbn [fst snd].
      pose proof (delivery_never_raises_write_error _ _ _ _ E1 Hw) as F.
      exact (IH _ _ _ E2 F).
  - repeat split.
    + exact Hw.
    + destruct (gst_rtmp_sink_start env s) as [[a ok] t] eqn:E.
      apply gst_rtmp_sink_start_shape in E as ((x & y & ->) & _).
      cbn. rewrite Hw. reflexivity.
    + destruct ev; [reflexivity | exact Hw].
Qed.

Lemma write_error_flag_never_raised_witness :
  exists s' rs,
    deliver_all started
      [(script_chunk, server_up); (video_chunk, server_up_send_fails);
       (audio_chunk, server_down)] = Done (s', rs) /\
    List.length rs = 3%nat /\
    Forall (fun r => have_write_error (sink r) = false) rs /\
    have_write_error s' = false.
Proof.
  do 2 eexists. split; [vm_compute; reflexivity|]. split; [reflexivity|].
  refine (let H := write_error_flag_never_raised server_up started
                     [(script_chunk, server_up);
                      (video_chunk, server_up_send_fails);
                      (audio_chunk, server_down)] _ _ GST_EVENT_OTHER _ _ in
          conj (proj1 H) (proj1 (proj2 H)));
    vm_compute; reflexivity.
Defined.

(** X3. Whatever a delivery hands to [RTMP_Write] is either the bytes of
    the delivered chunk or the bytes of a metadata slot that was saved on
    entry to the delivery.  With [first] cleared the delivery writes at
    most the chunk itself and leaves [header] as it was. *)
Theorem writes_are_chunk_or_saved_metadata env s buf r :
  gst_rtmp_sink_render env s buf = Done r ->
  Forall (fun b => b = data buf \/ In b (replay_plan s))
         (written (trace r)) /\
  (first s = false ->
   (written (trace r) = [] \/ written (trace r) = [data buf]) /\
   header (sink r) = header s).
Proof.
  intros H. split.
  - assert (A : Forall (fun b => b = data buf \/ In b (replay_plan (sink r)))
                       (written (trace r))).
    { walk H; settle; read_trace;
        first [ apply Forall_forall; intros b Hb; right; exact Hb
              | cases; read_trace; repeat constructor ]. }
    rewrite (replay_plan_after_delivery _ _ _ _ H) in A.
    apply Forall_forall. intros b Hb.
    rewrite Forall_forall in A. destruct (A b Hb) as [A1|A2].
    + left. exact A1.
    + apply replay_on_entry_sources. exact A2.
  - intros Hf. exact (send_branch_writes_chunk_alone env s buf r H Hf).
Qed.

Lemma writes_are_chunk_or_saved_metadata_witness :
  exists r r',
    gst_rtmp_sink_render server_up streaming video_chunk = Done r /\
    written (trace r) = [data video_chunk] /\
    header streaming = Some script_chunk /\
    header (sink r) = header streaming /\
    gst_rtmp_sink_render server_up send_failed late_video_chunk = Done r' /\
    Forall (fun b => b = data late_video_chunk \/
                     In b (replay_plan send_failed))
           (written (trace r')) /\
    written (trace r')
    = [data script_chunk; data video_chunk; data audio_chunk].
Proof.
  eassert (E : gst_rtmp_sink_render server_up streaming video_chunk
               = Done _) by (vm_compute; reflexivity).
  eassert (E' : gst_rtmp_sink_render server_up send_failed late_video_chunk
                = Done _) by (vm_compute; reflexivity).
  match type of E with
  | _ = Done ?r =>
      match type of E' with
      | _ = Done ?r' =>
          exists r, r';
          pose proof (writes_are_chunk_or_saved_metadata _ _ _ _ E)
            as (_ & W);
          pose proof (writes_are_chunk_or_saved_metadata _ _ _ _ E')
            as (W' & _)
      end
  end.
  specialize (W ltac:(vm_compute; reflexivity)). destruct W as (_ & W).
  split; [exact E|]. split; [vm_compute; reflexivity|].
  split; [vm_compute; reflexivity|]. split; [exact W|].
  split; [exact E'|]. split; [exact W'|]. vm_compute. reflexivity.
Defined.
(** The state a refused connect attempt leaves behind when a reconnection
    delay is set. *)
Lemma state_after_refusal env s buf r :
  gst_rtmp_sink_render env s buf = Done r ->
  connect_refused (trace r) = true ->
  0 < reconnection_delay s ->
  first (sink r) = true /\ try_now_connection (sink r) = false /\
  begin_time_disc (sink r) = timestamp buf /\
  connection_status (sink r) = -1 /\
  reconnection_delay (sink r) = reconnection_delay s.
Proof.
  intros H. walk H; settle; subst; read_trace; cases; read_trace;
    arith_facts; intros Hx Hd;
    first [discriminate Hx | lia | repeat split; reflexivity].
Qed.

(** With [first] set, the connection is looked at exactly when a retry is
    due; otherwise the delivery does nothing that can be observed. *)
Lemma first_branch_probe env s buf r :
  gst_rtmp_sink_render env s buf = Done r ->
  first s = true ->
  connection_probed (trace r) = retry_due (note_end_time s buf) /\
  (connection_probed (trace r) = false ->
   trace r = [] /\ flow r = GST_FLOW_OK).
Proof.
  intros H. unfold note_end_time.
  walk_exact H; settle_exact; subst; read_calls;
    intros Hf; try discriminate Hf;
    first [ split; [ reflexivity | intros _; split; reflexivity ]
          | split;
            [ match goal with
              | Hd : ?x = _ |- _ = ?x => rewrite Hd; reflexivity
              end
            | intros Hp; discriminate Hp ]
          | cases; read_calls;
            (split;
             [ match goal with
               | Hd : ?x = _ |- _ = ?x => rewrite Hd; reflexivity
               end
             | intros Hp; first [discriminate Hp | split; reflexivity] ]) ].
Qed.

(** X4. The retry window.  After a refused connect attempt on a chunk with
    timestamp [t0], with a reconnection delay [d > 0], the next delivery
    looks at the connection again exactly when the difference of its
    chunk's timestamp and [t0], taken in unsigned 64-bit arithmetic as line
    378 does, exceeds [d].  For a chunk stamped at or after [t0] that is
    when it is more than [d] after [t0]; for a chunk stamped before [t0]
    the difference wraps round to [2^64] minus the distance, so that such
    a chunk looks at the connection unless [d] is that large.  A delivery
    that does not look at the connection drops its chunk: it returns
    [GST_FLOW_OK] and calls nothing. *)
Theorem retry_window env s buf r0 env' buf' r1 :
  gst_rtmp_sink_render env s buf = Done r0 ->
  connect_refused (trace r0) = true ->
  0 < reconnection_delay s ->
  gst_rtmp_sink_render env' (sink r0) buf' = Done r1 ->
  connection_probed (trace r1)
  = (u64 (timestamp buf' - timestamp buf) >? reconnection_delay s) /\
  (0 <= timestamp buf' - timestamp buf < 2 ^ 64 ->
   connection_probed (trace r1)
   = (timestamp buf' - timestamp buf >? reconnection_delay s)) /\
  (0 < timestamp buf - timestamp buf' <= 2 ^ 64 ->
   connection_probed (trace r1)
   = (2 ^ 64 - (timestamp buf - timestamp buf') >? reconnection_delay s)) /\
  (connection_probed (trace r1) = false ->
   trace r1 = [] /\ flow r1 = GST_FLOW_OK).
Proof.
  intros H0 Hx Hd H1.
  destruct (state_after_refusal _ _ _ _ H0 Hx Hd) as (F1 & F2 & F3 & F4 & F5).
  destruct (first_branch_probe _ _ _ _ H1 F1) as (P1 & P2).
  assert (Hdue : retry_due (note_end_time (sink r0) buf')
                 = (u64 (timestamp buf' - timestamp buf)
                    >? reconnection_delay s)).
  { unfold note_end_time, in_error, retry_due. rewrite F4.
    rewrite orb_true_r. cbn [end_time_disc begin_time_disc
                             reconnection_delay try_now_connection
                             set_end_time_disc].
    rewrite F2, F3, F5, orb_false_r. reflexivity. }
  rewrite Hdue in P1. split; [exact P1|]. split; [|split; [|exact P2]].
  - intros Hts. rewrite P1. unfold u64.
    rewrite Z.mod_small by exact Hts. reflexivity.
  - intros Hts. rewrite P1. unfold u64.
    replace (timestamp buf' - timestamp buf)
      with (2 ^ 64 - (timestamp buf - timestamp buf') + -1 * 2 ^ 64) by lia.
    rewrite Z.mod_add by lia.
    rewrite Z.mod_small by lia. reflexivity.
Qed.

Lemma retry_window_witness :
  exists r0 r1 r2 r3,
    gst_rtmp_sink_render server_down started video_chunk = Done r0 /\
    gst_rtmp_sink_render server_down (sink r0) audio_chunk = Done r1 /\
    gst_rtmp_sink_render server_down (sink r0) late_video_chunk = Done r2 /\
    gst_rtmp_sink_render server_down (sink r0) script_chunk = Done r3 /\
    timestamp script_chunk < timestamp video_chunk /\
    connection_probed (trace r1) = false /\
    trace r1 = [] /\ flow r1 = GST_FLOW_OK /\
    connection_probed (trace r2) = true /\
    connection_probed (trace r3) = true.
Proof.
  eassert (E0 : gst_rtmp_sink_render server_down started video_chunk
                = Done _) by (vm_compute; reflexivity).
  match type of E0 with
  | _ = Done ?r0 =>
      eassert (E1 : gst_rtmp_sink_render server_down (sink r0) audio_chunk
                    = Done _) by (vm_compute; reflexivity);
      eassert (E2 : gst_rtmp_sink_render server_down (sink r0)
                      late_video_chunk = Done _) by (vm_compute; reflexivity);
      eassert (E3 : gst_rtmp_sink_render server_down (sink r0)
                      script_chunk = Done _) by (vm_compute; reflexivity)
  end.
  pose proof (fun Hx Hd => retry_window _ _ _ _ _ _ _ E0 Hx Hd E1) as W1.
  pose proof (fun Hx Hd => retry_window _ _ _ _ _ _ _ E0 Hx Hd E2) as W2.
  pose proof (fun Hx Hd => retry_window _ _ _ _ _ _ _ E0 Hx Hd E3) as W3.
  specialize (W1 eq_refl ltac:(vm_compute; reflexivity)).
  specialize (W2 eq_refl ltac:(vm_compute; reflexivity)).
  specialize (W3 eq_refl ltac:(vm_compute; reflexivity)).
  do 4 eexists. split; [exact E0|]. split; [exact E1|]. split; [exact E2|].
  split; [exact E3|]. split; [vm_compute; reflexivity|].
  destruct W1 as (W1a & _ & _ & W1b).
  destruct W2 as (_ & W2 & _ & _).
  destruct W3 as (_ & _ & W3 & _).
  assert (P1 : connection_probed (trace _) = false)
    by (rewrite W1a; vm_compute; reflexivity).
  split; [exact P1|]. destruct (W1b P1) as [Q1 Q2].
  split; [exact Q1|]. split; [exact Q2|]. split.
  - rewrite W2; [vm_compute; reflexivity
                | vm_compute; split; [discriminate | reflexivity]].
  - rewrite W3; [vm_compute; reflexivity
                | vm_compute; split; [reflexivity | discriminate]].
Defined.
(** A delivery that rebuilds the context after an error: the calls it
    starts with and the role it ends on. *)
Lemma reconnect_prefix env s buf r :
  gst_rtmp_sink_render env s buf = Done r ->
  first s = true ->
  in_error s = true ->
  retry_due (note_end_time s buf) = true ->
  exists u t',
    reconnect_uri s = Some u /\
    trace r = (if has_context s then [RTMP_Close; RTMP_Free] else [])
              ++ [RTMP_Alloc true; RTMP_Init; RTMP_SetupURL u true;
                  RTMP_EnableWrite; RTMP_IsConnected (is_connected env)]
              ++ t' /\
    is_backup (sink r) = switched_is_backup s /\
    urls_set_up (trace r) = [u] /\
    alloc_ok env = true /\ setup_url_ok env u = true.
Proof.
  intros H. unfold note_end_time.
  walk_exact H; settle_exact; subst; intros Hf He Hd;
    try discriminate Hf;
    try (rewrite He in *; cbn [negb andb orb] in *; congruence);
    rewrite He in *;
    match goal with
    | Hx : true = true -> true = true -> exists _, _ |- _ =>
        destruct (Hx eq_refl eq_refl) as (u & Hu & Halloc & Hsetup & _ & ->)
    end;
    exists u; rewrite Hu;
    first [ eexists; (split; [reflexivity|]);
            (split; [ rewrite <- ?app_assoc; cbn [app sink trace]; reflexivity
                    | split; [reflexivity
                             | split; [read_calls; cases; reflexivity
                                      | split; assumption] ] ])
          | cases; eexists; (split; [reflexivity|]);
            (split; [ rewrite <- ?app_assoc; cbn [app sink trace]; reflexivity
                    | split; [reflexivity
                             | split; [read_calls; cases; reflexivity
                                      | split; assumption] ] ]) ].
Qed.

(** A delivery leaves the configuration alone. *)
Lemma delivery_keeps_configuration env s buf r :
  gst_rtmp_sink_render env s buf = Done r ->
  uri (sink r) = uri s /\ backup_uri (sink r) = backup_uri s /\
  reconnection_delay (sink r) = reconnection_delay s /\
  tcp_timeout (sink r) = tcp_timeout s /\ flashver (sink r) = flashver s.
Proof.
  intros H. walk H; settle; cases; repeat split.
Qed.

(** The state a send error leaves behind. *)
Lemma state_after_send_error env s buf r :
  gst_rtmp_sink_render env s buf = Done r ->
  first s = false ->
  In (-1) (write_results (trace r)) ->
  first (sink r) = true /\ try_now_connection (sink r) = true /\
  sent_status (sink r) = -1 /\ has_context (sink r) = true /\
  begin_time_disc (sink r) = timestamp buf /\
  send_error_count (sink r) = u32 (send_error_count s + 1) /\
  is_backup (sink r) = is_backup s /\ flow r = GST_FLOW_OK.
Proof.
  intros H. walk H; settle_exact; subst; read_trace; cases; read_trace;
    arith_facts; intros Hf Hin; try discriminate Hf;
    try contradiction;
    destruct Hin as [Hin|[]];
    first [ lia | repeat split; first [reflexivity | assumption] ].
Qed.

(** X5. A send error arms an immediate reconnection.  When [RTMP_Write]
    returns -1 the delivery still returns [GST_FLOW_OK] and counts the
    error; the next delivery, whatever its timestamp, closes and frees the
    context, builds a new one for the reconnect URI and looks at the
    connection before anything else. *)
Theorem send_error_forces_reconnect env s buf r0 env' buf' r1 :
  gst_rtmp_sink_render env s buf = Done r0 ->
  first s = false ->
  In (-1) (write_results (trace r0)) ->
  gst_rtmp_sink_render env' (sink r0) buf' = Done r1 ->
  flow r0 = GST_FLOW_OK /\
  send_error_count (sink r0) = u32 (send_error_count s + 1) /\
  exists u t',
    reconnect_uri s = Some u /\
    trace r1 = [RTMP_Close; RTMP_Free; RTMP_Alloc true; RTMP_Init;
                RTMP_SetupURL u true; RTMP_EnableWrite;
                RTMP_IsConnected (is_connected env')] ++ t'.
Proof.
  intros H0 Hf Hin H1.
  destruct (state_after_send_error _ _ _ _ H0 Hf Hin)
    as (F1 & F2 & F3 & F4 & F5 & F6 & F7 & F8).
  destruct (delivery_keeps_configuration _ _ _ _ H0) as (C1 & C2 & _).
  split; [exact F8|]. split; [exact F6|].
  assert (He : in_error (sink r0) = true)
    by (unfold in_error; rewrite F3; reflexivity).
  assert (Hd : retry_due (note_end_time (sink r0) buf') = true).
  { unfold note_end_time. rewrite He. unfold retry_due.
    cbn [try_now_connection set_end_time_disc]. rewrite F2.
    apply orb_true_r. }
  destruct (reconnect_prefix _ _ _ _ H1 F1 He Hd) as (u & t' & Hu & Ht & _).
  exists u, t'. split.
  - rewrite <- Hu. unfold reconnect_uri, switched_is_backup.
    rewrite C1, C2, F7. reflexivity.
  - rewrite Ht, F4. reflexivity.
Qed.

Lemma send_error_forces_reconnect_witness :
  exists r0 r1 t',
    gst_rtmp_sink_render server_up_send_fails streaming video_chunk
    = Done r0 /\
    gst_rtmp_sink_render server_up (sink r0) audio_chunk = Done r1 /\
    flow r0 = GST_FLOW_OK /\ send_error_count (sink r0) = 1 /\
    trace r1 = [RTMP_Close; RTMP_Free; RTMP_Alloc true; RTMP_Init;
                RTMP_SetupURL "rtmp://localhost/live/stream" true;
                RTMP_EnableWrite; RTMP_IsConnected false] ++ t'.
Proof.
  eassert (E0 : gst_rtmp_sink_render server_up_send_fails streaming
                  video_chunk = Done _) by (vm_compute; reflexivity).
  match type of E0 with
  | _ = Done ?r0 =>
      eassert (E1 : gst_rtmp_sink_render server_up (sink r0) audio_chunk
                    = Done _) by (vm_compute; reflexivity)
  end.
  pose proof (fun Hf Hin =>
                send_error_forces_reconnect _ _ _ _ _ _ _ E0 Hf Hin E1) as W.
  specialize (W eq_refl ltac:(vm_compute; left; reflexivity)).
  destruct W as (W1 & W2 & u & t' & Wu & Wt).
  do 2 eexists. exists t'. split; [exact E0|]. split; [exact E1|].
  split; [exact W1|]. split; [vm_compute; reflexivity|].
  vm_compute in Wu. injection Wu as <-. exact Wt.
Defined.

(** X6. Reconnections alternate between the two URIs.  With a main and a
    backup URI set, a reconnection after an error sets up the URI of the
    other role and no other, and when that attempt is refused the next
    reconnection sets up the first URI again and ends on the role the
    element started from. *)
Theorem reconnections_alternate env s buf r0 env' buf' r1 u b :
  gst_rtmp_sink_render env s buf = Done r0 ->
  first s = true ->
  in_error s = true ->
  retry_due (note_end_time s buf) = true ->
  connect_refused (trace r0) = true ->
  0 < reconnection_delay s ->
  gst_rtmp_sink_render env' (sink r0) buf' = Done r1 ->
  retry_due (note_end_time (sink r0) buf') = true ->
  uri s = Some u ->
  backup_uri s = Some b ->
  urls_set_up (trace r0) = [if is_backup s then u else b] /\
  is_backup (sink r0) = negb (is_backup s) /\
  urls_set_up (trace r1) = [if is_backup s then b else u] /\
  is_backup (sink r1) = is_backup s.
Proof.
  intros H0 Hf He Hd Hx Hdelay H1 Hd1 Hu Hb.
  destruct (reconnect_prefix _ _ _ _ H0 Hf He Hd)
    as (u0 & t0 & U0 & _ & B0 & S0 & _).
  destruct (state_after_refusal _ _ _ _ H0 Hx Hdelay)
    as (F1 & F2 & F3 & F4 & F5).
  destruct (delivery_keeps_configuration _ _ _ _ H0) as (C1 & C2 & _).
  assert (He1 : in_error (sink r0) = true)
    by (unfold in_error; rewrite F4; apply orb_true_r).
  destruct (reconnect_prefix _ _ _ _ H1 F1 He1 Hd1)
    as (u1 & t1 & U1 & _ & B1 & S1 & _).
  unfold reconnect_uri, switched_is_backup in *.
  rewrite C1, C2, B0 in U1. rewrite C2, B0 in B1.
  rewrite Hb, Hu in *. rewrite Bool.negb_involutive in B1.
  rewrite S0, S1.
  destruct (is_backup s); cbn in U0, U1;
    injection U0 as <-; injection U1 as <-;
    repeat split; assumption || reflexivity.
Qed.
Lemma reconnections_alternate_witness :
  exists r0 r1,
    gst_rtmp_sink_render server_down refused_with_backup late_video_chunk
    = Done r0 /\
    gst_rtmp_sink_render server_down (sink r0) later_video_chunk = Done r1 /\
    urls_set_up (trace r0) = ["rtmp://backup.example/live/stream"] /\
    is_backup (sink r0) = true /\
    urls_set_up (trace r1) = ["rtmp://localhost/live/stream"] /\
    is_backup (sink r1) = false.
Proof.
  eassert (E0 : gst_rtmp_sink_render server_down refused_with_backup
                  late_video_chunk = Done _) by (vm_compute; reflexivity).
  match type of E0 with
  | _ = Done ?r0 =>
      eassert (E1 : gst_rtmp_sink_render server_down (sink r0)
                      later_video_chunk = Done _) by (vm_compute; reflexivity)
  end.
  pose proof (fun Hf He Hd Hx Hdelay Hd1 =>
                reconnections_alternate _ _ _ _ _ _ _
                  "rtmp://localhost/live/stream"
                  "rtmp://backup.example/live/stream"
                  E0 Hf He Hd Hx Hdelay E1 Hd1 eq_refl eq_refl) as W.
  specialize (W eq_refl eq_refl ltac:(vm_compute; reflexivity) eq_refl
                ltac:(vm_compute; reflexivity)
                ltac:(vm_compute; reflexivity)).
  do 2 eexists. split; [exact E0|]. split; [exact E1|]. exact W.
Defined.

(** X7. A reconnection that cannot build its context does not complete.
    When the element is in error, a retry is due and librtmp cannot
    allocate a context or rejects the URI of the role switched to, or no
    URI is set for that role, [gst_rtmp_sink_start] fails, its result is
    ignored, and [RTMP_IsConnected] is handed the [NULL] context. *)
Theorem reconnect_without_context_is_undefined env s buf :
  first s = true ->
  in_error s = true ->
  retry_due (note_end_time s buf) = true ->
  (forall u, reconnect_uri s = Some u ->
             alloc_ok env && setup_url_ok env u = false) ->
  gst_rtmp_sink_render env s buf = Undefined.
Proof.
  intros Hf He Hd Hu.
  destruct (gst_rtmp_sink_render env s buf) as [r|] eqn:H; [|reflexivity].
  exfalso.
  destruct (reconnect_prefix _ _ _ _ H Hf He Hd)
    as (u & t' & U & _ & _ & _ & Ha & Hs).
  specialize (Hu u U). rewrite Ha, Hs in Hu. discriminate Hu.
Qed.

Lemma reconnect_without_context_is_undefined_witness :
  first refused = true /\ in_error refused = true /\
  gst_rtmp_sink_render url_setup_fails refused late_video_chunk = Undefined.
Proof.
  split; [vm_compute; reflexivity|]. split; [vm_compute; reflexivity|].
  apply (reconnect_without_context_is_undefined url_setup_fails refused
           late_video_chunk);
    vm_compute; reflexivity.
Defined.

(** X8. A refused option is fatal whatever the reconnection delay.  When
    [RTMP_SetOpt] fails, the delivery returns [GST_FLOW_ERROR], the context
    and the URI copy are released, no connect attempt is made, nothing is
    written and no message is posted; [first] stays set. *)
Theorem refused_option_is_fatal env s buf r :
  gst_rtmp_sink_render env s buf = Done r ->
  option_refused (trace r) = true ->
  flow r = GST_FLOW_ERROR /\
  has_context (sink r) = false /\ rtmp_uri (sink r) = None /\
  connect_attempted (trace r) = false /\
  written (trace r) = [] /\ messages_of (trace r) = [] /\
  first (sink r) = true.
Proof.
  intros H. walk_exact H; settle_exact; subst; read_calls; read_trace;
    first [ intros Hx; discriminate Hx
          | cases; read_calls; read_trace; intros Hx;
            first [ discriminate Hx | repeat split; reflexivity ] ].
Qed.

Lemma refused_option_is_fatal_witness :
  exists r,
    gst_rtmp_sink_render options_refused started script_chunk = Done r /\
    0 < reconnection_delay started /\
    flow r = GST_FLOW_ERROR /\
    has_context (sink r) = false /\ rtmp_uri (sink r) = None /\
    connect_attempted (trace r) = false /\
    written (trace r) = [] /\ messages_of (trace r) = [] /\
    first (sink r) = true.
Proof.
  eexists. split; [vm_compute; reflexivity|].
  split; [vm_compute; reflexivity|].
  apply (refused_option_is_fatal options_refused started script_chunk);
    vm_compute; reflexivity.
Defined.

(** X9. The timestamps the messages carry.  [disconnected] and
    [bandwidth] carry the timestamp of the delivered chunk; [reconnected]
    carries [begin_time_disc], which is the timestamp of the delivered
    chunk when the element is in error on entry. *)
Theorem message_timestamps env s buf r :
  gst_rtmp_sink_render env s buf = Done r ->
  forall m, In m (messages_of (trace r)) ->
    m = disconnected (timestamp buf) \/
    m = bandwidth (timestamp buf) \/
    m = reconnected (if in_error s then timestamp buf
                     else begin_time_disc s).
Proof.
  intros H. walk_exact H; settle_exact; subst; read_trace; cases;
    read_trace; intros m Hm;
    repeat destruct Hm as [Hm|Hm]; try contradiction; subst m;
    auto.
Qed.

Lemma message_timestamps_witness :
  exists r,
    gst_rtmp_sink_render server_up refused late_video_chunk = Done r /\
    messages_of (trace r) = [reconnected (timestamp late_video_chunk)] /\
    reconnected (timestamp late_video_chunk)
    = reconnected (if in_error refused then timestamp late_video_chunk
                   else begin_time_disc refused).
Proof.
  eexists. split; [vm_compute; reflexivity|].
  split; [vm_compute; reflexivity|].
  destruct (message_timestamps server_up refused late_video_chunk _
              ltac:(vm_compute; reflexivity)
              (reconnected (timestamp late_video_chunk))
              ltac:(vm_compute; left; reflexivity)) as [W|[W|W]];
    [discriminate W | discriminate W | exact W].
Defined.
(** One delivery keeps [disconnection_notified] consistent with the
    state of the element. *)
Lemma delivery_keeps_notification_consistent env s buf r :
  gst_rtmp_sink_render env s buf = Done r ->
  notification_consistent s ->
  notification_consistent (sink r).
Proof.
  unfold notification_consistent, awaiting_reconnection.
  intros H. walk H; settle; subst; read_trace; cases; arith_facts;
    intros [Kn|(Kn & Kf & Kc & Ks & Ke)];
    try discriminate; try lia;
    first [ left; reflexivity
          | left; assumption
          | right; repeat split; first [reflexivity | assumption | lia] ].
Qed.

(** X10. [disconnection_notified] stays consistent.  From a new element
    on, through [gst_rtmp_sink_start], [gst_rtmp_sink_stop], events and
    any run of deliveries, [disconnection_notified] is 1, or it is 0 and
    the element is waiting to reconnect: [first] is set,
    [connection_status] is -1, [sent_status] is 0 and [send_error_count]
    is 0. *)
Theorem notification_stays_consistent env ev s l s' rs :
  notification_consistent s ->
  deliver_all s l = Done (s', rs) ->
  notification_consistent gst_rtmp_sink_init /\
  notification_consistent (fst (fst (gst_rtmp_sink_start env s))) /\
  notification_consistent (fst (gst_rtmp_sink_stop s)) /\
  notification_consistent (gst_rtmp_sink_event ev s) /\
  Forall (fun r => notification_consistent (sink r)) rs /\
  notification_consistent s'.
Proof.
  intros Hs Hrun. split; [left; reflexivity|].
  split.
  { destruct (gst_rtmp_sink_start env s) as [[a ok] t] eqn:E.
    apply gst_rtmp_sink_start_shape in E as ((x & y & ->) & _).
    destruct Hs as [Hn|(Hn & Hf & Hc & Hss & He)]; [left; exact Hn|].
    right. cbn. rewrite Hf. repeat split; assumption. }
  split.
  { destruct Hs as [Hn|(Hn & Hf & Hc & Hss & He)]; [left; exact Hn|].
    right. repeat split; assumption. }
  split.
  { destruct ev; [|exact Hs].
    destruct Hs as [Hn|(Hn & Hf & Hc & Hss & He)]; [left; exact Hn|].
    right. repeat split; assumption. }
  revert s s' rs Hs Hrun.
  induction l as [|[b e] l IH]; intros s s' rs Hs Hrun; cbn in Hrun.
  - injection Hrun as <- <-. split; [constructor | exact Hs].
  - unfold bind in Hrun.
    destruct (gst_rtmp_sink_render e s b) as [r1|] eqn:E1; [|discriminate].
    destruct (deliver_all (sink r1) l) as [[s2 rs2]|] eqn:E2; [|discriminate].
    injection Hrun as <- <-. cbn [fst snd].
    pose proof (delivery_keeps_notification_consistent _ _ _ _ E1 Hs) as F.
    destruct (IH _ _ _ F E2) as (G1 & G2).
    split; [constructor; assumption | exact G2].
Qed.

Lemma notification_stays_consistent_witness :
  exists s' rs,
    deliver_all started
      [(script_chunk, server_down); (video_chunk, server_down);
       (late_video_chunk, server_up)] = Done (s', rs) /\
    List.length rs = 3%nat /\
    Forall (fun r => notification_consistent (sink r)) rs /\
    notification_consistent s'.
Proof.
  do 2 eexists. split; [vm_compute; reflexivity|]. split; [reflexivity|].
  refine (proj2 (proj2 (proj2 (proj2
            (notification_stays_consistent server_up GST_EVENT_OTHER started
               [(script_chunk, server_down); (video_chunk, server_down);
                (late_video_chunk, server_up)] _ _ _ _)))));
    [left; vm_compute; reflexivity | vm_compute; reflexivity].
Defined.

(** One delivery with [first] cleared, no write error pending and no
    connection. *)
Lemma idle_delivery env s buf r :
  gst_rtmp_sink_render env s buf = Done r ->
  first s = false -> have_write_error s = false ->
  connection_status s <= 0 -> sent_status s <> -1 ->
  flow r = GST_FLOW_OK /\ trace r = [] /\
  first (sink r) = false /\ have_write_error (sink r) = false /\
  connection_status (sink r) = connection_status s /\
  sent_status (sink r) = sent_status s.
Proof.
  intros H. walk H; settle; subst; cases; arith_facts;
    intros Kf Kw Kc Ks; try discriminate; try lia;
    repeat split; reflexivity.
Qed.

(** X11. A sink left without a connection outside the connection branch
    discards everything silently.  With [first] cleared, no write error
    pending, [connection_status] not positive and [sent_status] other than
    -1 (the state a failed metadata replay leaves after a notified
    disconnection), every delivery of any run returns [GST_FLOW_OK], calls
    nothing, and leaves the element in the same condition: no chunk is
    written and no reconnection is ever attempted. *)
Theorem disconnected_sink_discards_silently s l s' rs :
  first s = false -> have_write_error s = false ->
  connection_status s <= 0 -> sent_status s <> -1 ->
  deliver_all s l = Done (s', rs) ->
  Forall (fun r => flow r = GST_FLOW_OK /\ trace r = []) rs /\
  first s' = false /\ connection_status s' = connection_status s /\
  sent_status s' = sent_status s.
Proof.
  revert s s' rs.
  induction l as [|[b e] l IH]; intros s s' rs Hf Hw Hc Hs Hrun; cbn in Hrun.
  - injection Hrun as <- <-. repeat split; auto.
  - unfold bind in Hrun.
    destruct (gst_rtmp_sink_render e s b) as [r1|] eqn:E1; [|discriminate].
    destruct (deliver_all (sink r1) l) as [[s2 rs2]|] eqn:E2; [|discriminate].
    injection Hrun as <- <-. cbn [fst snd].
    destruct (idle_delivery _ _ _ _ E1 Hf Hw Hc Hs)
      as (F1 & F2 & F3 & F4 & F5 & F6).
    destruct (IH _ _ _ F3 F4 ltac:(lia) ltac:(congruence) E2)
      as (G1 & G2 & G3 & G4).
    repeat split; auto; congruence.
Qed.

Lemma disconnected_sink_discards_silently_witness :
  exists s' rs,
    deliver_all replay_failed
      [(later_video_chunk, server_up); (later_video_chunk, server_up)]
    = Done (s', rs) /\
    List.length rs = 2%nat /\
    connection_status replay_failed = -1 /\
    Forall (fun r => flow r = GST_FLOW_OK /\ trace r = []) rs /\
    first s' = false /\
    connection_status s' = connection_status replay_failed /\
    sent_status s' = sent_status replay_failed.
Proof.
  do 2 eexists. split; [vm_compute; reflexivity|]. split; [reflexivity|].
  split; [vm_compute; reflexivity|].
  apply (disconnected_sink_discards_silently replay_failed
           [(later_video_chunk, server_up); (later_video_chunk, server_up)]);
    [ vm_compute; reflexivity | vm_compute; reflexivity
    | vm_compute; discriminate | vm_compute; discriminate
    | vm_compute; reflexivity ].
Defined.

(** X12. A write that [RTMP_Write] answers with 0 fails that delivery
    alone.  The delivery returns [GST_FLOW_ERROR] after handing the chunk
    to [RTMP_Write] once, but neither raises the write-error flag nor arms
    a reconnection: [first] stays cleared and the error counter is left
    alone, so the next chunk is written on the same connection. *)
Theorem zero_write_fails_one_delivery env s buf r :
  gst_rtmp_sink_render env s buf = Done r ->
  first s = false -> have_write_error s = false ->
  0 < connection_status s ->
  write_ret env O = 0 ->
  flow r = GST_FLOW_ERROR /\ written (trace r) = [data buf] /\
  first (sink r) = false /\ have_write_error (sink r) = false /\
  sent_status (sink r) = 0 /\
  connection_status (sink r) = connection_status s /\
  send_error_count (sink r) = send_error_count s /\
  try_now_connection (sink r) = try_now_connection s.
Proof.
  intros H. walk H; settle; subst; read_trace; cases; arith_facts;
    intros Kf Kw Kc Kz; try discriminate; try lia;
    rewrite ?Kz; repeat split; first [reflexivity | assumption].
Qed.

Lemma zero_write_fails_one_delivery_witness :
  exists r,
    gst_rtmp_sink_render server_takes_nothing streaming video_chunk
    = Done r /\
    flow r = GST_FLOW_ERROR /\ written (trace r) = [data video_chunk] /\
    first (sink r) = false /\ have_write_error (sink r) = false.
Proof.
  eassert (E : gst_rtmp_sink_render server_takes_nothing streaming
                 video_chunk = Done _) by (vm_compute; reflexivity).
  pose proof (zero_write_fails_one_delivery _ _ _ _ E eq_refl eq_refl
                ltac:(vm_compute; reflexivity) eq_refl)
    as (W1 & W2 & W3 & W4 & _).
  eexists. split; [exact E|]. repeat split; assumption.
Defined.
(** ** Start, stop, the URI handler, the properties and the caps *)

(** X13. When [gst_rtmp_sink_start] succeeds.  It answers [TRUE] exactly
    when a URI is set for the active role, librtmp allocates a context and
    accepts the URI.  It then holds a context, keeps a copy of that URI,
    sets [first] and clears the write-error flag.  When allocation or the
    URI setup fails it holds no context and no URI copy and leaves [first]
    alone; when no URI is set for the active role it changes nothing. *)
Theorem start_succeeds_iff env s :
  let s' := fst (fst (gst_rtmp_sink_start env s)) in
  let ok := snd (fst (gst_rtmp_sink_start env s)) in
  (ok = true <->
   exists u, active_uri s = Some u /\ alloc_ok env = true /\
             setup_url_ok env u = true) /\
  (ok = true ->
   has_context s' = true /\ rtmp_uri s' = active_uri s /\
   first s' = true /\ have_write_error s' = false) /\
  (ok = false -> active_uri s <> None ->
   has_context s' = false /\ rtmp_uri s' = None /\ first s' = first s /\
   have_write_error s' = have_write_error s) /\
  (active_uri s = None -> ok = false /\ s' = s).
Proof.
  unfold gst_rtmp_sink_start, start_error, active_uri, has_context.
  cbv zeta.
  destruct (if is_backup s then backup_uri s else uri s) as [u|] eqn:Eu.
  - destruct (alloc_ok env) eqn:Ea; cbn;
      [destruct (setup_url_ok env u) eqn:Es; cbn|];
      (split; [split; [intros Hx; first [discriminate Hx
                                        | exists u; repeat split; assumption]
                      | intros (u' & Hu' & Ha' & Hs');
                        first [reflexivity
                              | injection Hu' as <-; congruence
                              | congruence] ]
              | split; [intros Hx; first [discriminate Hx
                                         | repeat split; reflexivity]
                       | split; [intros Hx Hy;
                                 first [discriminate Hx
                                       | repeat split; reflexivity]
                                | intros Hx; discriminate Hx ] ] ]).
  - destruct (is_backup s); cbn;
      (split; [split; [intros Hx; discriminate Hx
                      | intros (u' & Hu' & _); discriminate Hu']
              | split; [intros Hx; discriminate Hx
                       | split; [intros _ Hy; contradiction Hy; reflexivity
                                | intros _; split; reflexivity ] ] ]).
Qed.

Lemma start_succeeds_iff_witness :
  snd (fst (gst_rtmp_sink_start server_up configured)) = true /\
  has_context started = true /\
  rtmp_uri started = Some "rtmp://localhost/live/stream" /\
  first started = true /\
  snd (fst (gst_rtmp_sink_start server_up gst_rtmp_sink_init)) = false.
Proof.
  pose proof (start_succeeds_iff server_up configured) as (W1 & W2 & _).
  pose proof (start_succeeds_iff server_up gst_rtmp_sink_init)
    as (_ & _ & _ & W4).
  cbv zeta in W1, W2, W4.
  assert (Hok : snd (fst (gst_rtmp_sink_start server_up configured)) = true).
  { apply W1. exists "rtmp://localhost/live/stream".
    repeat split; vm_compute; reflexivity. }
  destruct (W2 Hok) as (A & B & C & _).
  destruct (W4 ltac:(vm_compute; reflexivity)) as (D & _).
  split; [exact Hok|]. split; [exact A|]. split; [exact B|].
  split; [exact C | exact D].
Defined.

(** X14. Stop releases once, and stop followed by start is clean.
    [gst_rtmp_sink_stop] closes and frees the context exactly when one is
    held and leaves none; a second stop does nothing.  The calls of a stop
    followed by a start respect the life of the context from any state,
    while a start on an element that still holds a context allocates a
    second one without releasing the first. *)
Theorem stop_releases_once env s :
  let s1 := fst (gst_rtmp_sink_stop s) in
  snd (gst_rtmp_sink_stop s)
  = (if has_context s then [RTMP_Close; RTMP_Free] else []) /\
  has_context s1 = false /\ rtmp_uri s1 = None /\
  gst_rtmp_sink_stop s1 = (s1, []) /\
  context_after (has_context s)
    (snd (gst_rtmp_sink_stop s) ++ snd (gst_rtmp_sink_start env s1))
  = Some (has_context (fst (fst (gst_rtmp_sink_start env s1)))) /\
  (has_context s = true -> active_uri s <> None ->
   context_after (has_context s) (snd (gst_rtmp_sink_start env s)) = None).
Proof.
  unfold gst_rtmp_sink_stop, gst_rtmp_sink_start, start_error, active_uri,
    has_context.
  destruct s as [u0 bu ru rt fv tt rd ib fi hw tn cs ss sc dn bt et hd
                   sms vms ams smd vmd amd]; cbn.
  repeat split.
  - destruct rt; reflexivity.
  - destruct rt, ib, bu, u0; cbn;
      try reflexivity;
      destruct (alloc_ok env); cbn; try reflexivity;
      match goal with
      | |- context [setup_url_ok env ?u] => destruct (setup_url_ok env u)
      end; reflexivity.
  - intros Hc Hu. destruct rt; [|discriminate Hc].
    destruct ib, bu, u0; cbn;
      try (contradiction Hu; reflexivity);
      destruct (alloc_ok env); cbn; try reflexivity;
      match goal with
      | |- context [setup_url_ok env ?u] => destruct (setup_url_ok env u)
      end; reflexivity.
Qed.

Lemma stop_releases_once_witness :
  has_context streaming = true /\ active_uri streaming <> None /\
  context_after (has_context streaming)
    (snd (gst_rtmp_sink_start server_up streaming)) = None /\
  snd (gst_rtmp_sink_stop streaming) = [RTMP_Close; RTMP_Free].
Proof.
  pose proof (stop_releases_once server_up streaming)
    as (W1 & _ & _ & _ & _ & W6).
  split; [vm_compute; reflexivity|]. split; [vm_compute; discriminate|].
  split.
  - apply W6; [vm_compute; reflexivity | vm_compute; discriminate].
  - rewrite W1. vm_compute. reflexivity.
Defined.

(** X15. What [gst_rtmp_sink_uri_set_uri] stores.  In the PAUSED and
    PLAYING states it answers [FALSE] and changes nothing.  Otherwise it
    answers [TRUE] even for a URL that is rejected; the URI of the active
    role becomes the new URL when [RTMP_ParseURL] accepts it with a host
    and a play path, and is cleared when the URL is rejected or [NULL];
    the URI of the other role and the role itself are left alone. *)
Theorem uri_set_uri_stores st parse v s :
  let s' := fst (fst (gst_rtmp_sink_uri_set_uri st parse v s)) in
  let ret := snd (fst (gst_rtmp_sink_uri_set_uri st parse v s)) in
  (paused_or_playing st = true -> ret = false /\ s' = s) /\
  (paused_or_playing st = false ->
   ret = true /\ active_uri s' = accepted_uri parse v /\
   is_backup s' = is_backup s /\
   (if is_backup s then uri s' = uri s
    else backup_uri s' = backup_uri s)).
Proof.
  unfold gst_rtmp_sink_uri_set_uri, active_uri, accepted_uri. cbv zeta.
  destruct (paused_or_playing st); (split; [|intros Hp; try discriminate Hp]);
    try (intros Hp; discriminate Hp).
  - intros _. split; reflexivity.
  - destruct v as [u|]; [destruct (url_rejected parse u)|];
      destruct (is_backup s) eqn:Eb; cbn; rewrite ?Eb; repeat split.
Qed.

Lemma uri_set_uri_stores_witness :
  snd (fst (gst_rtmp_sink_uri_set_uri GST_STATE_NULL sample_parser
              (Some "rtmp://localhost/") configured)) = true /\
  uri (fst (fst (gst_rtmp_sink_uri_set_uri GST_STATE_NULL sample_parser
                   (Some "rtmp://localhost/") configured))) = None /\
  snd (fst (gst_rtmp_sink_uri_set_uri GST_STATE_PLAYING sample_parser
              (Some "rtmp://backup.example/live/stream") configured))
  = false.
Proof.
  pose proof (uri_set_uri_stores GST_STATE_NULL sample_parser
                (Some "rtmp://localhost/") configured) as (_ & W2).
  pose proof (uri_set_uri_stores GST_STATE_PLAYING sample_parser
                (Some "rtmp://backup.example/live/stream") configured)
    as (W3 & _).
  cbv zeta in W2, W3.
  destruct (W2 eq_refl) as (A & B & _).
  destruct (W3 eq_refl) as (C & _).
  split; [exact A|]. split; [|exact C].
  refine (eq_trans _ (eq_trans B _)); vm_compute; reflexivity.
Defined.

(** X16. Which URI the location properties write.  Setting
    [backup_location] leaves [is_backup] cleared whatever it was, also in
    the PAUSED and PLAYING states where the URI itself is not changed, and
    never touches the main URI.  Setting [location] writes the URI of the
    active role: while the element is on its backup role the backup URI is
    overwritten and the main URI, which is what the [location] property
    reads back, keeps its old value. *)
Theorem location_properties_write st parse v e :
  let eb := fst (gst_rtmp_sink_set_property st parse
                   (PROP_BACKUP_LOCATION v) e) in
  let el := fst (gst_rtmp_sink_set_property st parse (PROP_LOCATION v) e) in
  is_backup (element_sink eb) = false /\
  uri (element_sink eb) = uri (element_sink e) /\
  backup_uri (element_sink eb)
  = (if paused_or_playing st then backup_uri (element_sink e)
     else accepted_uri parse v) /\
  is_backup (element_sink el) = is_backup (element_sink e) /\
  (is_backup (element_sink e) = true ->
   gst_rtmp_sink_get_property ID_LOCATION el
   = gst_rtmp_sink_get_property ID_LOCATION e /\
   backup_uri (element_sink el)
   = (if paused_or_playing st then backup_uri (element_sink e)
      else accepted_uri parse v)) /\
  (is_backup (element_sink e) = false ->
   backup_uri (element_sink el) = backup_uri (element_sink e) /\
   uri (element_sink el)
   = (if paused_or_playing st then uri (element_sink e)
      else accepted_uri parse v)).
Proof.
  unfold gst_rtmp_sink_set_property, gst_rtmp_sink_uri_set_uri,
    gst_rtmp_sink_get_property, accepted_uri.
  cbv zeta. destruct e as [s lvl]. cbn [element_sink RTMP_debuglevel].
  destruct (paused_or_playing st); cbn.
  - destruct (is_backup s) eqn:Eb; cbn; rewrite ?Eb;
      repeat split; intros; first [reflexivity | congruence].
  - destruct v as [u|]; [destruct (url_rejected parse u)|];
      destruct (is_backup s) eqn:Eb; cbn; rewrite ?Eb;
      repeat split; intros; first [reflexivity | congruence].
Qed.

Lemma location_properties_write_witness :
  is_backup refused_with_backup = false /\
  is_backup (set_is_backup true refused_with_backup) = true /\
  gst_rtmp_sink_get_property ID_LOCATION
    (fst (gst_rtmp_sink_set_property GST_STATE_NULL sample_parser
            (PROP_LOCATION (Some "rtmp://localhost/live/stream"))
            {| element_sink := set_is_backup true refused_with_backup;
               RTMP_debuglevel := 1 |}))
  = gst_rtmp_sink_get_property ID_LOCATION
      {| element_sink := set_is_backup true refused_with_backup;
         RTMP_debuglevel := 1 |}.
Proof.
  split; [vm_compute; reflexivity|]. split; [reflexivity|].
  pose proof (location_properties_write GST_STATE_NULL sample_parser
                (Some "rtmp://localhost/live/stream")
                {| element_sink := set_is_backup true refused_with_backup;
                   RTMP_debuglevel := 1 |}) as (_ & _ & _ & _ & W & _).
  exact (proj1 (W eq_refl)).
Defined.

(** X17. The scalar properties read back what was set, and setting one
    leaves the others alone.  For [reconnection-delay], [tcp-timeout],
    [log-level] and [flashver], [gst_rtmp_sink_get_property] after
    [gst_rtmp_sink_set_property] returns the value set, and the value of
    every other property is what it was. *)
Theorem scalar_properties_read_back st parse e d t l f id :
  gst_rtmp_sink_get_property ID_RECONNECTION_DELAY
    (fst (gst_rtmp_sink_set_property st parse (PROP_RECONNECTION_DELAY d) e))
  = Some (G_UINT64 d) /\
  gst_rtmp_sink_get_property ID_TCP_TIMEOUT
    (fst (gst_rtmp_sink_set_property st parse (PROP_TCP_TIMEOUT t) e))
  = Some (G_UINT t) /\
  gst_rtmp_sink_get_property ID_LOG_LEVEL
    (fst (gst_rtmp_sink_set_property st parse (ARG_LOG_LEVEL l) e))
  = Some (G_INT l) /\
  gst_rtmp_sink_get_property ID_FLASHVER
    (fst (gst_rtmp_sink_set_property st parse (PROP_FLASHVER f) e))
  = Some (G_STRING (Some f)) /\
  (forall p,
      In p [PROP_RECONNECTION_DELAY d; PROP_TCP_TIMEOUT t; ARG_LOG_LEVEL l;
            PROP_FLASHVER f; PROP_0] ->
      id <> property_id p ->
      gst_rtmp_sink_get_property id
        (fst (gst_rtmp_sink_set_property st parse p e))
      = gst_rtmp_sink_get_property id e).
Proof.
  destruct e as [s lvl]. repeat split.
  intros p Hp Hid.
  repeat destruct Hp as [<-|Hp]; try contradiction;
    destruct id; try reflexivity; contradiction Hid; reflexivity.
Qed.

Lemma scalar_properties_read_back_witness :
  gst_rtmp_sink_get_property ID_TCP_TIMEOUT
    (fst (gst_rtmp_sink_set_property GST_STATE_NULL sample_parser
            (PROP_RECONNECTION_DELAY 0)
            {| element_sink := configured; RTMP_debuglevel := 1 |}))
  = Some (G_UINT 3).
Proof.
  refine (eq_trans
            (proj2 (proj2 (proj2 (proj2
               (scalar_properties_read_back GST_STATE_NULL sample_parser
                  {| element_sink := configured; RTMP_debuglevel := 1 |}
                  0 30 1 "flashver" ID_TCP_TIMEOUT))))
               (PROP_RECONNECTION_DELAY 0) _ _) _);
    [left; reflexivity | discriminate | reflexivity].
Defined.

(** The bytes and the timestamp of a chain of joins. *)
Lemma fold_join_data l b :
  data (fold_left gst_buffer_join l b) = data b ++ List.concat (map data l) /\
  timestamp (fold_left gst_buffer_join l b) = timestamp b.
Proof.
  revert b. induction l as [|x l IH]; intros b; cbn.
  - rewrite app_nil_r. split; reflexivity.
  - destruct (IH (gst_buffer_join b x)) as (D & T). rewrite D, T. cbn.
    rewrite app_assoc. split; reflexivity.
Qed.

(** X18. The header built from the caps.  With a [streamheader] array,
    [gst_rtmp_sink_setcaps] answers [TRUE] and replaces [header] by one
    buffer holding the bytes of the array's buffers in order, whatever
    [header] held before, and changes nothing else; without the field it
    reads the array through a [NULL] pointer.  The first delivery that
    then reaches an open connection replaces that header by the delivered
    chunk. *)
Theorem setcaps_builds_header env buffers s buf r :
  (exists h,
      gst_rtmp_sink_setcaps (Some buffers) s
      = Done (set_header (Some h) s, true) /\
      data h = List.concat (map data buffers) /\
      timestamp h = GST_CLOCK_TIME_NONE) /\
  gst_rtmp_sink_setcaps None s = Undefined /\
  (gst_rtmp_sink_render env
     (set_header (Some (fold_left gst_buffer_join buffers gst_buffer_new)) s)
     buf = Done r ->
   connection_open (trace r) = true ->
   header (sink r) = Some buf).
Proof.
  split; [|split; [reflexivity|]].
  - exists (fold_left gst_buffer_join buffers gst_buffer_new).
    destruct (fold_join_data buffers gst_buffer_new) as (D & T).
    split; [|split; [exact D | exact T]].
    unfold gst_rtmp_sink_setcaps. destruct s; reflexivity.
  - generalize (fold_left gst_buffer_join buffers gst_buffer_new).
    intros h H. walk H; settle; read_trace;
      first [ intros _; reflexivity
            | cases; read_trace; intros Ho; discriminate Ho ].
Qed.

Lemma setcaps_builds_header_witness :
  exists h r,
    gst_rtmp_sink_setcaps (Some sample_streamheader) started
    = Done (set_header (Some h) started, true) /\
    List.length (data h) = 29%nat /\
    gst_rtmp_sink_render server_up (set_header (Some h) started) video_chunk
    = Done r /\
    header (sink r) = Some video_chunk.
Proof.
  eassert (E : gst_rtmp_sink_render server_up
                 (set_header
                    (Some (fold_left gst_buffer_join sample_streamheader
                             gst_buffer_new)) started) video_chunk = Done _)
    by (vm_compute; reflexivity).
  match type of E with
  | _ = Done ?r =>
      pose proof (setcaps_builds_header server_up sample_streamheader started
                    video_chunk r) as (_ & _ & W)
  end.
  specialize (W E eq_refl).
  exists (fold_left gst_buffer_join sample_streamheader gst_buffer_new).
  eexists. split; [vm_compute; reflexivity|]. split; [reflexivity|].
  split; [exact E | exact W].
Defined.
(** The role after a delivery: left alone, or switched with a backup URI
    set. *)
Lemma delivery_role env s buf r :
  gst_rtmp_sink_render env s buf = Done r ->
  backup_uri (sink r) = backup_uri s /\
  (is_backup (sink r) = is_backup s \/
   (backup_uri s <> None /\ is_backup (sink r) = negb (is_backup s))).
Proof.
  intros H. walk_exact H; settle_exact; subst; cases;
    (split; [reflexivity|]);
    first [ left; reflexivity
          | right; split; [discriminate | reflexivity] ].
Qed.

(** X19. The backup role needs a backup URI.  If [is_backup] is only set
    while a backup URI is configured, this still holds after any run of
    deliveries, after [gst_rtmp_sink_start], [gst_rtmp_sink_stop] and
    events, and after setting any property other than [location]; it holds
    in a new element. *)
Theorem backup_role_needs_backup_uri env ev st parse p e l s' rs :
  (backup_uri (element_sink e) = None -> is_backup (element_sink e) = false) ->
  deliver_all (element_sink e) l = Done (s', rs) ->
  property_id p <> ID_LOCATION ->
  let keeps (x : GstRTMPSink) := backup_uri x = None -> is_backup x = false in
  keeps gst_rtmp_sink_init /\
  keeps s' /\
  keeps (fst (fst (gst_rtmp_sink_start env (element_sink e)))) /\
  keeps (fst (gst_rtmp_sink_stop (element_sink e))) /\
  keeps (gst_rtmp_sink_event ev (element_sink e)) /\
  keeps (element_sink (fst (gst_rtmp_sink_set_property st parse p e))).
Proof.
  intros Hs Hrun Hp keeps. subst keeps. cbv beta.
  split; [reflexivity|]. split.
  { destruct e as [s lvl]. cbn [element_sink] in *.
    revert s s' rs Hs Hrun.
    induction l as [|[b en] l IH]; intros s s' rs Hs Hrun; cbn in Hrun.
    - injection Hrun as <- <-. exact Hs.
    - unfold bind in Hrun.
      destruct (gst_rtmp_sink_render en s b) as [r1|] eqn:E1; [|discriminate].
      destruct (deliver_all (sink r1) l) as [[s2 rs2]|] eqn:E2; [|discriminate].
      injection Hrun as <- <-. cbn [fst snd].
      eapply IH; [|exact E2].
      destruct (delivery_role _ _ _ _ E1) as (B & [R|(N & R)]).
      + rewrite B, R. exact Hs.
      + rewrite B. intros Hn. contradiction. }
  split.
  { destruct (gst_rtmp_sink_start env (element_sink e)) as [[a ok] t] eqn:E.
    apply gst_rtmp_sink_start_shape in E as ((x & y & ->) & _). exact Hs. }
  split; [exact Hs|]. split; [destruct ev; exact Hs|].
  destruct e as [s lvl]. cbn [element_sink] in *.
  destruct p; try exact Hs; try (contradiction Hp; reflexivity).
  unfold gst_rtmp_sink_set_property, gst_rtmp_sink_uri_set_uri.
  cbn [element_sink]. intros _.
  destruct (paused_or_playing st); [reflexivity|].
  destruct v as [u|]; [destruct (url_rejected parse u)|]; reflexivity.
Qed.

Lemma backup_role_needs_backup_uri_witness :
  exists s' rs,
    deliver_all started
      [(script_chunk, server_down); (late_video_chunk, server_down)]
    = Done (s', rs) /\
    (backup_uri s' = None -> is_backup s' = false).
Proof.
  eassert (E : deliver_all started
                 [(script_chunk, server_down); (late_video_chunk, server_down)]
               = Done (_, _)) by (vm_compute; reflexivity).
  match type of E with
  | _ = Done (?a, ?b) =>
      exists a, b; split; [exact E|];
      pose proof (backup_role_needs_backup_uri server_up GST_EVENT_OTHER
                    GST_STATE_NULL sample_parser PROP_0
                    {| element_sink := started; RTMP_debuglevel := 1 |}
                    [(script_chunk, server_down);
                     (late_video_chunk, server_down)] a b) as W
  end.
  cbn [element_sink] in W.
  specialize (W (fun _ => eq_refl) E).
  assert (Hp : property_id PROP_0 <> ID_LOCATION) by discriminate.
  exact (proj1 (proj2 (W Hp))).
Defined.
